(** * yamada-san: scheduled feed notifier

    A shallow embedding of [src/index.ts].  The file holds two variants of
    the Lambda handler: the first one (lines 1-146) notifies about the
    second latest feed item once the latest one is fresh; the second one
    (lines 148-255) scans every item and notifies about each fresh one.
    They are embedded as the modules [PolicyA] and [PolicyB].

    Strings are byte strings holding the UTF-8 encoding of the source's
    literals.  Console output is not part of the model, and neither are the
    scheduled event and the context passed to the handler, which it only
    logs. *)

From Stdlib Require Import ZArith String Ascii List Lia.
From stdpp Require Import base option list gmap strings.

Local Open Scope string_scope.

(** ** The JavaScript operators the source uses *)

Module JS.

(** A property that may be missing: [undefined] is [None]. *)
Definition truthy (v : option string) : bool :=
  match v with
  | Some s => negb (String.eqb s "")
  | None => false
  end.

(** [v || d] *)
Definition or (v : option string) (d : string) : string :=
  match v with
  | Some s => if truthy v then s else d
  | None => d
  end.

(** [v ?? d] *)
Definition nullish (v : option string) (d : string) : string :=
  match v with
  | Some s => s
  | None => d
  end.

(** A value interpolated in a template literal. *)
Definition interpolate (v : option string) : string :=
  match v with
  | Some s => s
  | None => "undefined"
  end.

Definition LF : string := String (ascii_of_nat 10) EmptyString.

(** [lines.join(sep)] *)
Definition join (sep : string) (lines : list string) : string :=
  String.concat sep lines.

Fixpoint repeat_string (n : nat) (fill : string) : string :=
  match n with
  | O => ""
  | S n' => fill ++ repeat_string n' fill
  end.

(** [s.padStart(width, fill)] for a one-character [fill]; the strings it
    is applied to are digits, for which bytes and UTF-16 units agree. *)
Definition padStart (width : nat) (fill : string) (s : string) : string :=
  repeat_string (width - String.length s) fill ++ s.

End JS.

(** ** Results, exceptions and the invocation monad *)

Inductive exn : Type :=
| JsError (message : string)      (* [new Error(message)] *)
| TypeError (message : string)    (* raised by the runtime *)
| Rejection (reason : string).    (* a rejected promise of a collaborator *)

Inductive result (A : Type) : Type :=
| Ok (a : A)
| Throw (e : exn).
Arguments Ok {A} a.
Arguments Throw {A} e.

(** The input of a [PublishCommand]. *)
Record PublishInput : Type := mkPublishInput {
  TopicArn : string;
  Subject : string;
  Message : string
}.

(** An item of the parsed feed ([Parser.Item]), with the three properties
    the handlers read. *)
Record RssItem : Type := mkRssItem {
  title : option string;
  link : option string;
  pubDate : option string
}.

Record Feed : Type := mkFeed { items : list RssItem }.

Record SNSClient : Type := mkSNSClient { client_region : string }.

(** The collaborators of one invocation.  A time value is the number of
    milliseconds since the epoch; [Date_parse s] is the time value of
    [new Date(s)], [None] when it is [NaN].  [client_send c sent input] is
    the outcome of [c.send(new PublishCommand(input))] after the calls
    [sent]. *)
Record Platform : Type := mkPlatform {
  process_env : gmap string string;
  Date_now : Z;
  Date_parse : string -> option Z;
  parseURL : string -> result Feed;
  client_send : SNSClient -> list PublishInput -> PublishInput -> result string
}.

(** A computation of an invocation: it may throw, and it extends the list
    of publish calls issued so far (oldest first). *)
Definition M (A : Type) : Type :=
  list PublishInput -> result A * list PublishInput.

Definition ret {A : Type} (a : A) : M A := fun sent => (Ok a, sent).

Definition throw {A : Type} (e : exn) : M A := fun sent => (Throw e, sent).

Definition bind {A B : Type} (m : M A) (k : A -> M B) : M B :=
  fun sent =>
    match m sent with
    | (Ok a, sent') => k a sent'
    | (Throw e, sent') => (Throw e, sent')
    end.

Definition try_catch {A : Type} (m : M A) (h : exn -> M A) : M A :=
  fun sent =>
    match m sent with
    | (Ok a, sent') => (Ok a, sent')
    | (Throw e, sent') => h e sent'
    end.

Definition lift {A : Type} (r : result A) : M A := fun sent => (r, sent).

Notation "x <- m ;; k" := (bind m (fun x => k))
  (at level 100, m at next level, right associativity).
Notation "m ;;; k" := (bind m (fun _ => k))
  (at level 100, right associativity).

(** [await client.send(new PublishCommand(input))] *)
Definition send (P : Platform) (client : SNSClient) (input : PublishInput) : M string :=
  fun sent => (client_send P client sent input, (sent ++ [input])%list).

(** [for (const item of items) body] *)
Fixpoint for_of {A : Type} (xs : list A) (body : A -> M unit) : M unit :=
  match xs with
  | [] => ret tt
  | x :: rest => body x ;;; for_of rest body
  end.

(** Running an invocation from the empty call list. *)
Definition run {A : Type} (m : M A) : result A * list PublishInput := m [].
Definition published {A : Type} (m : M A) : list PublishInput := snd (run m).

Definition RSS_URL : string :=
  "https://mgpk-cdn.magazinepocket.com/static/rss/2620/feed.xml".
Definition DEFAULT_REGION : string := "ap-northeast-1".
Definition SUBJECT : string := "配信予定: 『みいちゃんと山田さん』".

(** ** The date formatter of the runtime

    [Intl.DateTimeFormat] belongs to the JavaScript runtime, not to the
    repository.  The model covers the locale ["ja-JP"], the time zone
    ["Asia/Tokyo"] and the six option sets the source constructs; it
    follows the patterns of the CLDR locale data for [ja] that the
    runtime's ICU resolves them to.  Asia/Tokyo is UTC+9 without summer
    time for every instant since 1951-09-08; earlier instants (summer time
    from 1948 to 1951, local mean time before 1888) are outside the model,
    and the statements about the rendered date are made on the covered
    instants. *)

Module Intl.

Local Open Scope Z_scope.

(** The proleptic Gregorian date (year, month, day) of a day number
    counted from 1970-01-01. *)
Definition civil_from_days (z : Z) : Z * Z * Z :=
  let z := z + 719468 in
  let era := z / 146097 in
  let doe := z - era * 146097 in
  let yoe := (doe - doe / 1460 + doe / 36524 - doe / 146096) / 365 in
  let y := yoe + era * 400 in
  let doy := doe - (365 * yoe + yoe / 4 - yoe / 100) in
  let mp := (5 * doy + 2) / 153 in
  let d := doy - (153 * mp + 2) / 5 + 1 in
  let m := if mp <? 10 then mp + 3 else mp - 9 in
  (if m <=? 2 then y + 1 else y, m, d).

Definition MS_PER_MINUTE : Z := 60 * 1000.
Definition MS_PER_HOUR : Z := 60 * MS_PER_MINUTE.
Definition MS_PER_DAY : Z := 24 * MS_PER_HOUR.
Definition TOKYO_OFFSET : Z := 9 * MS_PER_HOUR.

(** The value of a calendar field of the instant [t] in Asia/Tokyo; the
    year is the year of the era, the hour runs from 0 to 23. *)
Definition field_value (field : string) (t : Z) : Z :=
  let local := t + TOKYO_OFFSET in
  let '(y, m, d) := civil_from_days (local / MS_PER_DAY) in
  if String.eqb field "year" then (if 0 <? y then y else 1 - y)
  else if String.eqb field "month" then m
  else if String.eqb field "day" then d
  else if String.eqb field "hour" then (local mod MS_PER_DAY) / MS_PER_HOUR
  else if String.eqb field "minute" then (local mod MS_PER_HOUR) / MS_PER_MINUTE
  else 0.

Definition digit (n : Z) : ascii := ascii_of_nat (48 + Z.to_nat n).

Fixpoint decimal_aux (fuel : nat) (n : Z) (acc : string) : string :=
  let acc' := String (digit (n mod 10)) acc in
  match fuel with
  | O => acc'
  | S fuel' => if n <? 10 then acc' else decimal_aux fuel' (n / 10) acc'
  end.

(** The decimal digits of a natural number, without padding. *)
Definition decimal (n : Z) : string :=
  decimal_aux (Z.to_nat (Z.log2 n)) n "".

(** An item of a resolved pattern: a numeric field printed with at least
    [min_digits] digits, or literal text. *)
Inductive pattern_item : Type :=
| Field (type : string) (min_digits : nat)
| Literal (text : string).

Definition pattern : Type := list pattern_item.

Record part : Type := mkPart { type : string; value : string }.

Definition format_item (t : Z) (i : pattern_item) : part :=
  match i with
  | Field ty w => mkPart ty (JS.padStart w "0" (decimal (field_value ty t)))
  | Literal s => mkPart "literal" s
  end.

(** [dtf.formatToParts(date)] *)
Definition formatToParts (dtf : pattern) (date : Z) : list part :=
  map (format_item date) dtf.

(** [dtf.format(date)] *)
Definition format (dtf : pattern) (date : Z) : string :=
  String.concat "" (map value (formatToParts dtf date)).

(** [{year: "numeric", month: "2-digit", day: "2-digit", hour: "2-digit",
     minute: "2-digit", hour12: false}]: pattern [y/MM/dd HH:mm]. *)
Definition DateTimeFormat_full : pattern :=
  [Field "year" 1; Literal "/"; Field "month" 2; Literal "/"; Field "day" 2;
   Literal " "; Field "hour" 2; Literal ":"; Field "minute" 2].

(** [{year: "numeric"}]: pattern [y年]. *)
Definition DateTimeFormat_year : pattern := [Field "year" 1; Literal "年"].

(** [{month: "2-digit"}]: pattern [MM月]. *)
Definition DateTimeFormat_month : pattern := [Field "month" 2; Literal "月"].

(** [{day: "2-digit"}]: pattern [dd日]. *)
Definition DateTimeFormat_day : pattern := [Field "day" 2; Literal "日"].

(** [{hour: "2-digit", hour12: false}]: pattern [HH時]. *)
Definition DateTimeFormat_hour : pattern := [Field "hour" 2; Literal "時"].

(** [{minute: "2-digit"}]: pattern [m]; for a minute on its own the
    runtime keeps the width of the locale's pattern. *)
Definition DateTimeFormat_minute : pattern := [Field "minute" 1].

End Intl.

(** ** First variant: the second latest item, gated by the latest one *)

Module PolicyA.

Record Config : Type := mkConfig {
  topicArn : string;
  region : string
}.

Definition getConfigFromEnv (P : Platform) : result Config :=
  let TOPIC_ARN := process_env P !! "TOPIC_ARN" in
  let AWS_REGION := process_env P !! "AWS_REGION" in
  if negb (JS.truthy TOPIC_ARN) then
    Throw (JsError "Missing environment variables: TOPIC_ARN")
  else
    Ok {| topicArn := JS.nullish TOPIC_ARN "";
          region := JS.nullish AWS_REGION DEFAULT_REGION |}.

Definition createSnsClient (region : string) : SNSClient :=
  {| client_region := region |}.

Definition sendMessage (P : Platform) (client : SNSClient)
    (topicArn subject message : string) : M string :=
  let input :=
    {| TopicArn := topicArn; Subject := subject; Message := message |} in
  try_catch (res <- send P client input ;; ret res) (fun err => throw err).

Definition formatJstDateTime (date : Z) : string :=
  let dtf := Intl.DateTimeFormat_full in
  let parts : gmap string string :=
    fold_left
      (fun acc p =>
         if negb (String.eqb (Intl.type p) "literal")
         then <[Intl.type p := Intl.value p]> acc
         else acc)
      (Intl.formatToParts dtf date) ∅ in
  let yyyy := parts !! "year" in
  let mm := parts !! "month" in
  let dd := parts !! "day" in
  let hh := JS.padStart 2 "0" (JS.nullish (parts !! "hour") "") in
  let min := JS.padStart 2 "0" (JS.nullish (parts !! "minute") "") in
  JS.interpolate yyyy ++ "/" ++ JS.interpolate mm ++ "/" ++ JS.interpolate dd
    ++ " " ++ hh ++ ":" ++ min ++ " (JST)".

Definition buildMessage (title : string) (pubDate : Z) (url : string) : string :=
  JS.join JS.LF
    [ "『みいちゃんと山田さん』が公開されました！";
      "";
      "詳細情報";
      "- タイトル: " ++ title;
      "- 配信日: " ++ formatJstDateTime pubDate;
      "- URL: " ++ url ].

(** [Date.now()] is a time value, on which [new Date] is the identity. *)
Definition getCutoffDate (P : Platform) (hours : Z) : Z :=
  (Date_now P - hours * 60 * 60 * 1000)%Z.

(** [label] only appears in the console output. *)
Definition requirePubDate (P : Platform) (item : RssItem) (label : string) : option Z :=
  if negb (JS.truthy (pubDate item)) then None
  else Date_parse P (JS.nullish (pubDate item) "").

Record Display : Type := mkDisplay { display_title : string; display_url : string }.

Definition getItemDisplay (item : RssItem) : Display :=
  {| display_title := JS.or (title item) "タイトルなし";
     display_url := JS.or (link item) "URLなし" |}.

Definition fetchFeedItems (P : Platform) : M (list RssItem) :=
  feed <- lift (parseURL P RSS_URL) ;;
  ret (items feed).

(** [items[i]], whose properties the caller goes on to read. *)
Definition item_at (items : list RssItem) (i : nat) : M RssItem :=
  match items !! i with
  | Some item => ret item
  | None => throw (TypeError "Cannot read properties of undefined")
  end.

Definition handler (P : Platform) : M unit :=
  cfg <- lift (getConfigFromEnv P) ;;
  let sns := createSnsClient (region cfg) in
  items <- fetchFeedItems P ;;
  if (length items =? 0)%nat then ret tt else
  latestItem <- item_at items 0 ;;
  match requirePubDate P latestItem "latest" with
  | None => ret tt
  | Some latestPubDate =>
    let cutoff := getCutoffDate P 24 in
    if (latestPubDate <=? cutoff)%Z then ret tt else
    if (length items <? 2)%nat then ret tt else
    secondLatestItem <- item_at items 1 ;;
    match requirePubDate P secondLatestItem "second latest" with
    | None => ret tt
    | Some secondLatestPubDate =>
      let d := getItemDisplay secondLatestItem in
      let msg :=
        buildMessage (display_title d) secondLatestPubDate (display_url d) in
      (sendMessage P sns (topicArn cfg) SUBJECT msg ;;; ret tt)
    end
  end.

End PolicyA.

(** ** Second variant: every fresh item *)

Module PolicyB.

Record Config : Type := mkConfig {
  key : string;
  topicArn : string;
  region : string
}.

Definition getConfigFromEnv (P : Platform) : result Config :=
  let KEY := process_env P !! "KEY" in
  let TOPIC_ARN := process_env P !! "TOPIC_ARN" in
  let AWS_REGION := process_env P !! "AWS_REGION" in
  if negb (JS.truthy KEY) || negb (JS.truthy TOPIC_ARN) then
    Throw (JsError "Missing environment variables: KEY or TOPIC_ARN")
  else
    Ok {| key := JS.nullish KEY "";
          topicArn := JS.nullish TOPIC_ARN "";
          region := JS.nullish AWS_REGION DEFAULT_REGION |}.

Definition createSnsClient (region : string) : SNSClient :=
  {| client_region := region |}.

Definition sendMessage (P : Platform) (client : SNSClient)
    (topicArn subject message : string) : M string :=
  let input :=
    {| TopicArn := topicArn; Subject := subject; Message := message |} in
  try_catch (res <- send P client input ;; ret res) (fun err => throw err).

Definition formatJstDateTime (date : Z) : string :=
  let yyyy := Intl.format Intl.DateTimeFormat_year date in
  let mm := Intl.format Intl.DateTimeFormat_month date in
  let dd := Intl.format Intl.DateTimeFormat_day date in
  let hh := Intl.format Intl.DateTimeFormat_hour date in
  let min := Intl.format Intl.DateTimeFormat_minute date in
  yyyy ++ "/" ++ mm ++ "/" ++ dd ++ " " ++ hh ++ ":" ++ min ++ " (JST)".

Definition buildMessage (title : string) (pubDate : Z) : string :=
  JS.join JS.LF
    [ "『みいちゃんと山田さん』が公開されました！";
      "";
      "詳細情報";
      "- タイトル: " ++ title;
      "- 配信日: " ++ formatJstDateTime pubDate ].

(** The body of the loop over the items. *)
Definition notify_if_fresh (P : Platform) (sns : SNSClient) (cfg : Config)
    (yesterday : Z) (item : RssItem) : M unit :=
  if negb (JS.truthy (pubDate item)) then ret tt else
  match Date_parse P (JS.nullish (pubDate item) "") with
  | None => ret tt
  | Some pubDate =>
    if (yesterday <? pubDate)%Z then
      let msg := buildMessage (JS.or (title item) "タイトルなし") pubDate in
      (sendMessage P sns (topicArn cfg) SUBJECT msg ;;; ret tt)
    else ret tt
  end.

Definition handler (P : Platform) : M unit :=
  cfg <- lift (getConfigFromEnv P) ;;
  let sns := createSnsClient (region cfg) in
  feed <- lift (parseURL P RSS_URL) ;;
  let items := items feed in
  let yesterday := (Date_now P - 24 * 60 * 60 * 1000)%Z in
  for_of items (notify_if_fresh P sns cfg yesterday).

End PolicyB.


(** ** Vocabulary of the statements *)

Local Open Scope Z_scope.

(** The cutoff of an invocation: its time minus 24 hours. *)
Definition cutoff (P : Platform) : Z := Date_now P - 24 * 60 * 60 * 1000.

(** The publish timestamp of an entry, when it has one that parses. *)
Definition publishTime (P : Platform) (item : RssItem) : option Z :=
  match pubDate item with
  | Some s => if String.eqb s "" then None else Date_parse P s
  | None => None
  end.

(** The entries of the fetched feed, none when the fetch fails. *)
Definition feed_items (P : Platform) : list RssItem :=
  match parseURL P RSS_URL with
  | Ok feed => items feed
  | Throw _ => []
  end.

Definition is_throw {A : Type} (r : result A) : Prop := exists e, r = Throw e.
Definition is_ok {A : Type} (r : result A) : Prop := exists a, r = Ok a.

(** The publish call of the first variant for the entry [item] with the
    timestamp [t]. *)
Definition notificationA (cfg : PolicyA.Config) (item : RssItem) (t : Z) : PublishInput :=
  {| TopicArn := PolicyA.topicArn cfg;
     Subject := SUBJECT;
     Message :=
       PolicyA.buildMessage
         (PolicyA.display_title (PolicyA.getItemDisplay item)) t
         (PolicyA.display_url (PolicyA.getItemDisplay item)) |}.

(** The publish call of the second variant for [item], when its timestamp
    is strictly after the cutoff. *)
Definition notificationB (P : Platform) (cfg : PolicyB.Config) (item : RssItem)
    : option PublishInput :=
  match publishTime P item with
  | Some t =>
    if cutoff P <? t then
      Some {| TopicArn := PolicyB.topicArn cfg;
              Subject := SUBJECT;
              Message := PolicyB.buildMessage (JS.or (title item) "タイトルなし") t |}
    else None
  | None => None
  end.

(** The lines that both variants compose: the announcement, a blank line,
    the header, the title line and the date line. *)
Definition message_head (ttl date_line : string) : string :=
  JS.join JS.LF
    [ "『みいちゃんと山田さん』が公開されました！";
      "";
      "詳細情報";
      "- タイトル: " ++ ttl;
      "- 配信日: " ++ date_line ].

(** A value of the environment that is absent or empty. *)
Definition missing (env : gmap string string) (k : string) : Prop :=
  env !! k = None \/ env !! k = Some "".

(** Issuing the publish calls [msgs] in order until one fails. *)
Fixpoint deliver (P : Platform) (sns : SNSClient) (msgs : list PublishInput)
    (sent : list PublishInput) : result unit * list PublishInput :=
  match msgs with
  | [] => (Ok tt, sent)
  | m :: rest =>
    match client_send P sns sent m with
    | Ok _ => deliver P sns rest (sent ++ [m])%list
    | Throw e => (Throw e, (sent ++ [m])%list)
    end
  end.

(** Whether the second variant notifies about an entry. *)
Definition fresh (P : Platform) (item : RssItem) : bool :=
  match publishTime P item with
  | Some t => cutoff P <? t
  | None => false
  end.

(** The two digits of a number below one hundred and the four digits of a
    number below ten thousand. *)
Definition two_digits (n : Z) : string :=
  String (Intl.digit (n / 10)) (String (Intl.digit (n mod 10)) EmptyString).

Definition four_digits (n : Z) : string :=
  String (Intl.digit (n / 1000))
    (String (Intl.digit (n / 100 mod 10)) (two_digits (n mod 100))).

(** The instants that the model of the formatter covers and whose year in
    Asia/Tokyo has four digits: from 1951-09-08T15:00:00Z to
    9999-12-31T14:59:59.999Z. *)
Definition JST_FIRST : Z := -577962000000.
Definition JST_LAST : Z := 253402268399999.

(** [p] holds of the [n] numbers from [z] on. *)
Fixpoint all_from (n : nat) (z : Z) (p : Z -> bool) : bool :=
  match n with
  | O => true
  | S k => p z && all_from k (z + 1) p
  end.

(** [p] holds of every number from [0] up to [bound - 1]. *)
Definition all_below (bound : Z) (p : Z -> bool) : bool :=
  all_from (Z.to_nat bound) 0 p.

(** The part of [Intl.civil_from_days] that depends on the day of the
    400-year era alone: the year within the era, the month and the day. *)
Definition civil_of_doe (doe : Z) : Z * Z * Z :=
  let yoe := (doe - doe / 1460 + doe / 36524 - doe / 146096) / 365 in
  let doy := doe - (365 * yoe + yoe / 4 - yoe / 100) in
  let mp := (5 * doy + 2) / 153 in
  let d := doy - (153 * mp + 2) / 5 + 1 in
  let m := if mp <? 10 then mp + 3 else mp - 9 in
  (if m <=? 2 then yoe + 1 else yoe, m, d).

(** The platform [P] with another outcome of the fetch, another
    environment, or another transport. *)
Definition with_feed (P : Platform) (r : result Feed) : Platform :=
  {| process_env := process_env P; Date_now := Date_now P;
     Date_parse := Date_parse P; parseURL := fun _ => r;
     client_send := client_send P |}.


Definition with_transport (P : Platform)
    (f : SNSClient -> list PublishInput -> PublishInput -> result string) : Platform :=
  {| process_env := process_env P; Date_now := Date_now P;
     Date_parse := Date_parse P; parseURL := parseURL P;
     client_send := f |}.

(** An entry reduced to its timestamp, and an entry without its link. *)
Definition timestamp_only (item : RssItem) : RssItem :=
  {| title := None; link := None; pubDate := pubDate item |}.

Definition without_link (item : RssItem) : RssItem :=
  {| title := title item; link := None; pubDate := pubDate item |}.

(** The region of the client the handlers create. *)
Definition configured_region (P : Platform) : string :=
  match process_env P !! "AWS_REGION" with
  | Some r => r
  | None => DEFAULT_REGION
  end.

(** ** Sample invocations

    The invocation time is 2024-03-15T06:30:00Z, so the cutoff is
    2024-03-14T06:30:00Z. *)

Module Sample.

Definition NOW : Z := 1710484200000.

(** [new Date] on the timestamps of the sample entries. *)
Definition parse (s : string) : option Z :=
  if String.eqb s "Fri, 15 Mar 2024 05:30:00 GMT" then Some 1710480600000
  else if String.eqb s "Fri, 15 Mar 2024 03:30:00 GMT" then Some 1710473400000
  else if String.eqb s "Thu, 14 Mar 2024 00:30:00 GMT" then Some 1710376200000
  else if String.eqb s "Wed, 13 Mar 2024 00:30:00 GMT" then Some 1710289800000
  else None.

Definition ep3 : RssItem :=
  {| title := Some "Ep3"; link := Some "https://example.com/ep3";
     pubDate := Some "Fri, 15 Mar 2024 05:30:00 GMT" |}.
Definition ep2 : RssItem :=
  {| title := Some "Ep2"; link := Some "https://example.com/ep2";
     pubDate := Some "Fri, 15 Mar 2024 03:30:00 GMT" |}.
Definition ep1 : RssItem :=
  {| title := Some "Ep1"; link := Some "https://example.com/ep1";
     pubDate := Some "Thu, 14 Mar 2024 00:30:00 GMT" |}.
Definition ep0 : RssItem :=
  {| title := Some "Ep0"; link := Some "https://example.com/ep0";
     pubDate := Some "Wed, 13 Mar 2024 00:30:00 GMT" |}.
(** A fresh entry without title and link, one with empty ones, and
    entries whose timestamp is missing or does not parse. *)
Definition untitled : RssItem :=
  {| title := None; link := None;
     pubDate := Some "Fri, 15 Mar 2024 05:30:00 GMT" |}.
Definition undated : RssItem :=
  {| title := Some "Teaser"; link := None; pubDate := None |}.
Definition misdated : RssItem :=
  {| title := Some "Teaser"; link := None; pubDate := Some "soon" |}.

Definition TOPIC : string := "arn:aws:sns:ap-northeast-1:000000000000:yamada".

Definition env : gmap string string :=
  <["KEY" := "secret"]> (<["TOPIC_ARN" := TOPIC]> ∅).

(** A transport that accepts every call, and one that accepts the first
    call and rejects the later ones. *)
Definition accept (c : SNSClient) (sent : list PublishInput) (input : PublishInput)
    : result string := Ok "message-id".
Definition reject_after_first (c : SNSClient) (sent : list PublishInput)
    (input : PublishInput) : result string :=
  match sent with
  | [] => Ok "message-id"
  | _ :: _ => Throw (Rejection "Throttled")
  end.

Definition platform (its : list RssItem) : Platform :=
  {| process_env := env; Date_now := NOW; Date_parse := parse;
     parseURL := fun _ => Ok (mkFeed its); client_send := accept |}.

Definition flaky_platform (its : list RssItem) : Platform :=
  {| process_env := env; Date_now := NOW; Date_parse := parse;
     parseURL := fun _ => Ok (mkFeed its); client_send := reject_after_first |}.

Definition platform_with_env (e : gmap string string) : Platform :=
  {| process_env := e; Date_now := NOW; Date_parse := parse;
     parseURL := fun _ => Ok (mkFeed [ep3; ep1]); client_send := accept |}.

Definition cfgA : PolicyA.Config :=
  {| PolicyA.topicArn := TOPIC; PolicyA.region := DEFAULT_REGION |}.
Definition cfgB : PolicyB.Config :=
  {| PolicyB.key := "secret"; PolicyB.topicArn := TOPIC;
     PolicyB.region := DEFAULT_REGION |}.


(** A fresh entry without title, a fresh entry without link, and a
    platform whose environment has no [KEY] and whose transport rejects
    every call. *)
Definition no_title : RssItem :=
  {| title := None; link := Some "https://example.com/ep3";
     pubDate := Some "Fri, 15 Mar 2024 05:30:00 GMT" |}.
Definition no_link : RssItem :=
  {| title := Some "Ep3"; link := None;
     pubDate := Some "Fri, 15 Mar 2024 05:30:00 GMT" |}.

Definition reject (c : SNSClient) (sent : list PublishInput) (input : PublishInput)
    : result string := Throw (Rejection "Throttled").

Definition keyless_rejecting_platform (its : list RssItem) : Platform :=
  {| process_env := <["TOPIC_ARN" := TOPIC]> ∅; Date_now := NOW; Date_parse := parse;
     parseURL := fun _ => Ok (mkFeed its); client_send := reject |}.

(** A transport that serves the default region alone. *)
Definition regional (c : SNSClient) (sent : list PublishInput) (input : PublishInput)
    : result string :=
  if String.eqb (client_region c) DEFAULT_REGION then Ok "message-id"
  else Throw (Rejection "UnknownEndpoint").

End Sample.

(** ** The invocation monad and the timestamp of an entry *)

Lemma requirePubDate_publishTime (P : Platform) (item : RssItem) (label : string) :
  PolicyA.requirePubDate P item label = publishTime P item.
Proof.
  unfold PolicyA.requirePubDate, publishTime, JS.truthy, JS.nullish.
  destruct (pubDate item) as [s|]; [|reflexivity].
  destruct (String.eqb s ""); reflexivity.
Qed.

Lemma getCutoffDate_cutoff (P : Platform) : PolicyA.getCutoffDate P 24 = cutoff P.
Proof. reflexivity. Qed.

Lemma sendMessageA_run (P : Platform) (c : SNSClient) (topic subj msg : string)
    (sent : list PublishInput) :
  PolicyA.sendMessage P c topic subj msg sent =
    (client_send P c sent (mkPublishInput topic subj msg),
     (sent ++ [mkPublishInput topic subj msg])%list).
Proof.
  unfold PolicyA.sendMessage, try_catch, bind, send, ret, throw.
  destruct (client_send P c sent _); reflexivity.
Qed.

Lemma sendMessageB_run (P : Platform) (c : SNSClient) (topic subj msg : string)
    (sent : list PublishInput) :
  PolicyB.sendMessage P c topic subj msg sent =
    (client_send P c sent (mkPublishInput topic subj msg),
     (sent ++ [mkPublishInput topic subj msg])%list).
Proof.
  unfold PolicyB.sendMessage, try_catch, bind, send, ret, throw.
  destruct (client_send P c sent _); reflexivity.
Qed.

(** An invocation of the first variant: it publishes for the second entry
    when the configuration loads, the latest entry is fresh and the second
    entry has a timestamp, and returns quietly otherwise. *)
Lemma handlerA_run (P : Platform) :
  run (PolicyA.handler P) =
    match PolicyA.getConfigFromEnv P with
    | Ok cfg =>
      match parseURL P RSS_URL with
      | Ok feed =>
        match items feed with
        | latest :: second :: _ =>
          match publishTime P latest, publishTime P second with
          | Some t0, Some t1 =>
            if cutoff P <? t0 then
              deliver P (PolicyA.createSnsClient (PolicyA.region cfg))
                [notificationA cfg second t1] []
            else (Ok tt, [])
          | _, _ => (Ok tt, [])
          end
        | _ => (Ok tt, [])
        end
      | Throw e => (Throw e, [])
      end
    | Throw e => (Throw e, [])
    end.
Proof.
  unfold run, PolicyA.handler, PolicyA.fetchFeedItems, bind, lift, ret.
  destruct (PolicyA.getConfigFromEnv P) as [cfg|e]; [|reflexivity].
  destruct (parseURL P RSS_URL) as [[its]|e]; [|reflexivity].
  cbn [items].
  destruct its as [|latest rest]; [reflexivity|].
  cbn [length Nat.eqb PolicyA.item_at lookup list_lookup ret].
  rewrite requirePubDate_publishTime, getCutoffDate_cutoff.
  destruct (publishTime P latest) as [t0|]; [|destruct rest; reflexivity].
  rewrite Z.leb_antisym.
  destruct (cutoff P <? t0); cbn [negb].
  2:{ destruct rest as [|second rest]; [reflexivity|].
      destruct (publishTime P second); reflexivity. }
  destruct rest as [|second rest]; [reflexivity|].
  cbn [length Nat.ltb Nat.leb PolicyA.item_at lookup list_lookup ret].
  rewrite requirePubDate_publishTime.
  destruct (publishTime P second) as [t1|]; [|reflexivity].
  rewrite sendMessageA_run. cbn [deliver]. unfold notificationA.
  destruct (client_send P _ _ _); reflexivity.
Qed.

Lemma notify_if_fresh_run (P : Platform) (sns : SNSClient) (cfg : PolicyB.Config)
    (item : RssItem) (sent : list PublishInput) :
  PolicyB.notify_if_fresh P sns cfg (cutoff P) item sent =
    match notificationB P cfg item with
    | Some m => deliver P sns [m] sent
    | None => (Ok tt, sent)
    end.
Proof.
  unfold PolicyB.notify_if_fresh, notificationB, publishTime, JS.truthy, JS.nullish.
  destruct (pubDate item) as [s|]; [|reflexivity].
  destruct (String.eqb s ""); [reflexivity|]. cbn [negb].
  destruct (Date_parse P s) as [t|]; [|reflexivity].
  destruct (cutoff P <? t); [|reflexivity].
  unfold bind. rewrite sendMessageB_run. cbn [deliver].
  destruct (client_send P sns sent _); reflexivity.
Qed.

Lemma for_of_deliver (P : Platform) (sns : SNSClient) (cfg : PolicyB.Config)
    (its : list RssItem) (sent : list PublishInput) :
  for_of its (PolicyB.notify_if_fresh P sns cfg (cutoff P)) sent =
    deliver P sns (omap (notificationB P cfg) its) sent.
Proof.
  revert sent. induction its as [|item its IH]; intros sent; [reflexivity|].
  cbn [for_of omap list_omap]. unfold bind at 1.
  rewrite notify_if_fresh_run.
  destruct (notificationB P cfg item) as [m|]; [|apply IH].
  cbn [deliver].
  destruct (client_send P sns sent m); [apply IH|reflexivity].
Qed.

(** An invocation of the second variant issues, in order, the publish calls
    of the fresh entries. *)
Lemma handlerB_run (P : Platform) :
  run (PolicyB.handler P) =
    match PolicyB.getConfigFromEnv P with
    | Ok cfg =>
      match parseURL P RSS_URL with
      | Ok feed =>
        deliver P (PolicyB.createSnsClient (PolicyB.region cfg))
          (omap (notificationB P cfg) (items feed)) []
      | Throw e => (Throw e, [])
      end
    | Throw e => (Throw e, [])
    end.
Proof.
  unfold run, PolicyB.handler, bind, lift.
  destruct (PolicyB.getConfigFromEnv P) as [cfg|e]; [|reflexivity].
  destruct (parseURL P RSS_URL) as [feed|e]; [|reflexivity].
  apply for_of_deliver.
Qed.

Lemma deliver_sent_prefix (P : Platform) (sns : SNSClient) (msgs sent : list PublishInput) :
  exists k : nat, snd (deliver P sns msgs sent) = (sent ++ take k msgs)%list.
Proof.
  revert sent. induction msgs as [|m msgs IH]; intros sent.
  - exists 0%nat. cbn. now rewrite app_nil_r.
  - cbn [deliver]. destruct (client_send P sns sent m).
    + destruct (IH (sent ++ [m])%list) as [k Hk]. exists (S k).
      rewrite Hk. cbn [take]. now rewrite <- app_assoc.
    + exists 1%nat. cbn [snd take]. destruct msgs; reflexivity.
Qed.

Lemma deliver_all_ok (P : Platform) (sns : SNSClient) (msgs sent : list PublishInput) :
  (forall sent' m, is_ok (client_send P sns sent' m)) ->
  deliver P sns msgs sent = (Ok tt, (sent ++ msgs)%list).
Proof.
  intros Hok. revert sent. induction msgs as [|m msgs IH]; intros sent.
  - cbn. now rewrite app_nil_r.
  - cbn [deliver]. destruct (Hok sent m) as [r ->].
    rewrite IH. now rewrite <- app_assoc.
Qed.

Lemma deliver_app (P : Platform) (sns : SNSClient) (a b sent : list PublishInput) :
  deliver P sns (a ++ b)%list sent =
    match deliver P sns a sent with
    | (Ok _, sent') => deliver P sns b sent'
    | (Throw e, sent') => (Throw e, sent')
    end.
Proof.
  revert sent. induction a as [|x a IH]; intros sent; [reflexivity|].
  cbn [app deliver]. destruct (client_send P sns sent x); [apply IH|reflexivity].
Qed.

Lemma length_omap_notificationB (P : Platform) (cfg : PolicyB.Config)
    (its : list RssItem) :
  length (omap (notificationB P cfg) its) = length (List.filter (fresh P) its).
Proof.
  induction its as [|item its IH]; [reflexivity|].
  cbn [omap list_omap List.filter].
  unfold notificationB at 1. unfold fresh at 1.
  destruct (publishTime P item) as [t|]; [|exact IH].
  destruct (cutoff P <? t); [|exact IH].
  cbn [length]. f_equal. exact IH.
Qed.

Lemma deliver_one_published (P : Platform) (sns : SNSClient) (m : PublishInput) :
  snd (deliver P sns [m] []) = [m].
Proof. cbn [deliver]. destruct (client_send P sns [] m); reflexivity. Qed.

Lemma omap_notificationB_stale (P : Platform) (cfg : PolicyB.Config)
    (its : list RssItem) :
  Forall (fun item => forall t, publishTime P item = Some t -> t <= cutoff P) its ->
  omap (notificationB P cfg) its = [].
Proof.
  induction 1 as [|item its Hitem _ IH]; [reflexivity|].
  cbn [omap list_omap]. rewrite IH. unfold notificationB.
  destruct (publishTime P item) as [t|]; [|reflexivity].
  specialize (Hitem t eq_refl). apply Z.ltb_ge in Hitem.
  now rewrite Hitem.
Qed.

(** ** The first variant's selection *)

(** C1: when the feed has at least two entries, the latest entry has a
    timestamp strictly after the cutoff and the second entry has a
    timestamp, the first variant issues exactly one publish call, and it
    carries the message composed for the second entry; nothing is asked of
    the second entry's timestamp. *)
Theorem policyA_selects_second_entry (P : Platform) (cfg : PolicyA.Config)
    (latest second : RssItem) (rest : list RssItem) (t0 t1 : Z) :
  PolicyA.getConfigFromEnv P = Ok cfg ->
  parseURL P RSS_URL = Ok (mkFeed (latest :: second :: rest)) ->
  publishTime P latest = Some t0 ->
  cutoff P < t0 ->
  publishTime P second = Some t1 ->
  published (PolicyA.handler P) = [notificationA cfg second t1].
Proof.
  intros Hcfg Hfeed H0 Hfresh H1.
  unfold published. rewrite handlerA_run, Hcfg, Hfeed. cbn [items].
  rewrite H0, H1.
  apply Z.ltb_lt in Hfresh. rewrite Hfresh.
  apply deliver_one_published.
Qed.

(** The sample feed of two entries, the latest one hour old and the second
    thirty hours old: the second entry is older than the cutoff and is the
    one notified. *)
Lemma policyA_selects_second_entry_witness :
  1710376200000 <= cutoff (Sample.platform [Sample.ep3; Sample.ep1]) /\
  published (PolicyA.handler (Sample.platform [Sample.ep3; Sample.ep1])) =
    [notificationA Sample.cfgA Sample.ep1 1710376200000].
Proof.
  split; [vm_compute; discriminate|].
  apply (policyA_selects_second_entry
           (Sample.platform [Sample.ep3; Sample.ep1]) Sample.cfgA
           Sample.ep3 Sample.ep1 [] 1710480600000 1710376200000);
    vm_compute; reflexivity.
Defined.

(** C5: when the latest entry has no timestamp strictly after the cutoff,
    the first variant returns without a publish call; when no entry of the
    feed has one, neither variant issues a publish call. *)
Theorem stale_feed_publishes_nothing (P : Platform) (feed : Feed) :
  parseURL P RSS_URL = Ok feed ->
  (forall cfg latest,
     PolicyA.getConfigFromEnv P = Ok cfg ->
     items feed !! 0%nat = Some latest ->
     (forall t, publishTime P latest = Some t -> t <= cutoff P) ->
     run (PolicyA.handler P) = (Ok tt, [])) /\
  (forall cfgA cfgB,
     PolicyA.getConfigFromEnv P = Ok cfgA ->
     PolicyB.getConfigFromEnv P = Ok cfgB ->
     Forall (fun item => forall t, publishTime P item = Some t -> t <= cutoff P)
       (items feed) ->
     run (PolicyA.handler P) = (Ok tt, []) /\
     run (PolicyB.handler P) = (Ok tt, [])).
Proof.
  intros Hfeed.
  assert (HA : forall cfg,
    PolicyA.getConfigFromEnv P = Ok cfg ->
    (forall latest, items feed !! 0%nat = Some latest ->
       forall t, publishTime P latest = Some t -> t <= cutoff P) ->
    run (PolicyA.handler P) = (Ok tt, [])).
  { intros cfg Hcfg Hstale. rewrite handlerA_run, Hcfg, Hfeed.
    destruct (items feed) as [|latest [|second rest]]; try reflexivity.
    specialize (Hstale latest eq_refl).
    destruct (publishTime P latest) as [t0|]; [|reflexivity].
    destruct (publishTime P second) as [t1|]; [|reflexivity].
    specialize (Hstale t0 eq_refl).
    apply Z.ltb_ge in Hstale. now rewrite Hstale. }
  split.
  - intros cfg latest Hcfg Hlatest Hstale. apply (HA cfg Hcfg).
    intros l Hl. rewrite Hlatest in Hl. now inversion Hl; subst.
  - intros cfgA cfgB HcfgA HcfgB Hall. split.
    + apply (HA cfgA HcfgA). intros latest Hl.
      destruct (items feed) as [|x xs]; [discriminate|].
      inversion Hl; subst. now inversion Hall.
    + rewrite handlerB_run, HcfgB, Hfeed.
      now rewrite (omap_notificationB_stale P cfgB (items feed) Hall).
Qed.

(** The sample feed of two entries older than the cutoff. *)
Lemma stale_feed_publishes_nothing_witness :
  run (PolicyA.handler (Sample.platform [Sample.ep1; Sample.ep0])) = (Ok tt, []) /\
  run (PolicyB.handler (Sample.platform [Sample.ep1; Sample.ep0])) = (Ok tt, []).
Proof.
  apply (proj2 (stale_feed_publishes_nothing
                  (Sample.platform [Sample.ep1; Sample.ep0])
                  (mkFeed [Sample.ep1; Sample.ep0]) eq_refl)
           Sample.cfgA Sample.cfgB).
  - vm_compute; reflexivity.
  - vm_compute; reflexivity.
  - repeat constructor; intros t Ht; vm_compute in Ht; inversion Ht; subst;
      vm_compute; discriminate.
Defined.

(** C6: when the feed has a single entry and its timestamp is strictly
    after the cutoff, the first variant returns without a publish call. *)
Theorem policyA_single_entry_publishes_nothing (P : Platform) (cfg : PolicyA.Config)
    (latest : RssItem) (t : Z) :
  PolicyA.getConfigFromEnv P = Ok cfg ->
  parseURL P RSS_URL = Ok (mkFeed [latest]) ->
  publishTime P latest = Some t ->
  cutoff P < t ->
  run (PolicyA.handler P) = (Ok tt, []).
Proof.
  intros Hcfg Hfeed _ _. now rewrite handlerA_run, Hcfg, Hfeed.
Qed.

Lemma policyA_single_entry_publishes_nothing_witness :
  run (PolicyA.handler (Sample.platform [Sample.ep3])) = (Ok tt, []).
Proof.
  apply (policyA_single_entry_publishes_nothing
           (Sample.platform [Sample.ep3]) Sample.cfgA Sample.ep3 1710480600000);
    vm_compute; reflexivity.
Defined.

(** ** The number of publish calls *)

(** C2, as the code has it: the first variant issues at most one publish
    call per invocation; the second variant issues at most one per entry
    whose timestamp is strictly after the cutoff, which can be several. *)
Theorem publish_calls_bounded (P : Platform) :
  (length (published (PolicyA.handler P)) <= 1)%nat /\
  (length (published (PolicyB.handler P))
     <= length (List.filter (fresh P) (feed_items P)))%nat.
Proof.
  unfold published. split.
  - rewrite handlerA_run.
    destruct (PolicyA.getConfigFromEnv P) as [cfg|e]; [|cbn; lia].
    destruct (parseURL P RSS_URL) as [feed|e]; [|cbn; lia].
    destruct (items feed) as [|latest [|second rest]]; try (cbn; lia).
    destruct (publishTime P latest) as [t0|]; [|cbn; lia].
    destruct (publishTime P second) as [t1|]; [|cbn; lia].
    destruct (cutoff P <? t0); [|cbn; lia].
    rewrite deliver_one_published. cbn. lia.
  - rewrite handlerB_run. unfold feed_items.
    destruct (PolicyB.getConfigFromEnv P) as [cfg|e]; [|cbn; lia].
    destruct (parseURL P RSS_URL) as [feed|e]; [|cbn; lia].
    destruct (deliver_sent_prefix P (PolicyB.createSnsClient (PolicyB.region cfg))
                (omap (notificationB P cfg) (items feed)) []) as [k ->].
    cbn [app]. rewrite length_take, length_omap_notificationB. lia.
Qed.

(** A feed whose first two entries are both fresh makes the second variant
    issue two publish calls in one invocation. *)
Lemma at_most_one_message_counterexample :
  ~ (length (published (PolicyB.handler (Sample.platform [Sample.ep3; Sample.ep2])))
       <= 1)%nat.
Proof. vm_compute. lia. Qed.

(** ** The second variant's scan *)

(** C4: the publish calls of the second variant are, in the order of the
    feed, those of the entries whose timestamp is strictly after the
    cutoff, one call each, up to the first call that fails; the entries
    whose timestamp is missing or does not parse contribute none and do not
    end the loop.  When every call succeeds, the invocation returns after
    the calls of all the fresh entries. *)
Theorem policyB_notifies_each_fresh_entry (P : Platform) (cfg : PolicyB.Config)
    (feed : Feed) :
  PolicyB.getConfigFromEnv P = Ok cfg ->
  parseURL P RSS_URL = Ok feed ->
  published (PolicyB.handler P) `prefix_of` omap (notificationB P cfg) (items feed) /\
  ((forall sent input,
      is_ok (client_send P (PolicyB.createSnsClient (PolicyB.region cfg)) sent input)) ->
   run (PolicyB.handler P) = (Ok tt, omap (notificationB P cfg) (items feed))).
Proof.
  intros Hcfg Hfeed. unfold published. rewrite handlerB_run, Hcfg, Hfeed. split.
  - destruct (deliver_sent_prefix P (PolicyB.createSnsClient (PolicyB.region cfg))
                (omap (notificationB P cfg) (items feed)) []) as [k ->].
    cbn [app]. exists (drop k (omap (notificationB P cfg) (items feed))).
    now rewrite take_drop.
  - intros Hok. now rewrite deliver_all_ok.
Qed.

(** Two fresh entries around an entry without timestamp and one whose
    timestamp does not parse, followed by a stale entry: two publish
    calls. *)
Lemma policyB_notifies_each_fresh_entry_witness :
  let feed := [Sample.ep3; Sample.undated; Sample.misdated; Sample.ep2; Sample.ep1] in
  run (PolicyB.handler (Sample.platform feed)) =
    (Ok tt, omap (notificationB (Sample.platform feed) Sample.cfgB) feed) /\
  omap (notificationB (Sample.platform feed) Sample.cfgB) feed =
    omap (notificationB (Sample.platform feed) Sample.cfgB) [Sample.ep3; Sample.ep2].
Proof.
  split.
  - apply (policyB_notifies_each_fresh_entry
             (Sample.platform
                [Sample.ep3; Sample.undated; Sample.misdated; Sample.ep2; Sample.ep1])
             Sample.cfgB
             (mkFeed [Sample.ep3; Sample.undated; Sample.misdated; Sample.ep2; Sample.ep1])).
    + vm_compute; reflexivity.
    + reflexivity.
    + intros sent input. exists "message-id"%string. reflexivity.
  - vm_compute; reflexivity.
Defined.

(** ** Publish failures *)

(** C9: [sendMessage] throws the error the transport failed with, in
    both variants and for every call; an invocation of the first variant
    whose publish call fails ends with that error; and in the second
    variant, when the calls [done] succeed and the next call [input]
    fails, the invocation fails with that error after the calls [done] and
    [input]: no call is issued for the later entries. *)
Theorem publish_failure_aborts (P : Platform) :
  (forall c topic subj msg sent e,
     client_send P c sent (mkPublishInput topic subj msg) = Throw e ->
     fst (PolicyA.sendMessage P c topic subj msg sent) = Throw e /\
     fst (PolicyB.sendMessage P c topic subj msg sent) = Throw e) /\
  (forall cfg latest second rest t0 t1 e,
     PolicyA.getConfigFromEnv P = Ok cfg ->
     parseURL P RSS_URL = Ok (mkFeed (latest :: second :: rest)) ->
     publishTime P latest = Some t0 ->
     cutoff P < t0 ->
     publishTime P second = Some t1 ->
     client_send P (PolicyA.createSnsClient (PolicyA.region cfg)) []
       (notificationA cfg second t1) = Throw e ->
     run (PolicyA.handler P) = (Throw e, [notificationA cfg second t1])) /\
  (forall cfg feed done later input e,
     PolicyB.getConfigFromEnv P = Ok cfg ->
     parseURL P RSS_URL = Ok feed ->
     omap (notificationB P cfg) (items feed) = (done ++ input :: later)%list ->
     deliver P (PolicyB.createSnsClient (PolicyB.region cfg)) done [] = (Ok tt, done) ->
     client_send P (PolicyB.createSnsClient (PolicyB.region cfg)) done input = Throw e ->
     run (PolicyB.handler P) = (Throw e, (done ++ [input])%list)).
Proof.
  split; [|split].
  - intros c topic subj msg sent e He.
    now rewrite sendMessageA_run, sendMessageB_run, He.
  - intros cfg latest second rest t0 t1 e Hcfg Hfeed H0 Hfresh H1 He.
    rewrite handlerA_run, Hcfg, Hfeed. cbn [items]. rewrite H0, H1.
    apply Z.ltb_lt in Hfresh. rewrite Hfresh. cbn [deliver]. now rewrite He.
  - intros cfg feed done later input e Hcfg Hfeed Hmsgs Hdone Hfail.
    rewrite handlerB_run, Hcfg, Hfeed, Hmsgs, deliver_app, Hdone.
    cbn [deliver]. now rewrite Hfail.
Qed.

(** A first-variant invocation without [KEY] whose call is rejected, and
    three fresh entries on a transport that rejects every call after the
    first: the second call fails and the third entry gets none. *)
Lemma publish_failure_aborts_witness :
  let PA := Sample.keyless_rejecting_platform [Sample.ep3; Sample.ep1] in
  let PB := Sample.flaky_platform [Sample.ep3; Sample.undated; Sample.ep2; Sample.untitled] in
  is_throw (PolicyB.getConfigFromEnv PA) /\
  fst (PolicyA.sendMessage PA (mkSNSClient DEFAULT_REGION) Sample.TOPIC SUBJECT "text" [])
    = Throw (Rejection "Throttled") /\
  run (PolicyA.handler PA) =
    (Throw (Rejection "Throttled"),
     [notificationA Sample.cfgA Sample.ep1 1710376200000]) /\
  exists m3 m2,
    notificationB PB Sample.cfgB Sample.ep3 = Some m3 /\
    notificationB PB Sample.cfgB Sample.ep2 = Some m2 /\
    is_Some (notificationB PB Sample.cfgB Sample.untitled) /\
    run (PolicyB.handler PB) = (Throw (Rejection "Throttled"), [m3; m2]).
Proof.
  split; [eexists; vm_compute; reflexivity|].
  split.
  { apply (proj1 (publish_failure_aborts
                    (Sample.keyless_rejecting_platform [Sample.ep3; Sample.ep1]))
             (mkSNSClient DEFAULT_REGION) Sample.TOPIC SUBJECT "text"%string []
             (Rejection "Throttled")).
    reflexivity. }
  split.
  { apply (proj1 (proj2 (publish_failure_aborts
                           (Sample.keyless_rejecting_platform [Sample.ep3; Sample.ep1])))
             Sample.cfgA Sample.ep3 Sample.ep1 [] 1710480600000 1710376200000
             (Rejection "Throttled"));
      vm_compute; reflexivity. }
  eexists _, _. split; [reflexivity|]. split; [reflexivity|].
  split; [eexists; reflexivity|].
  refine (proj2 (proj2 (publish_failure_aborts
            (Sample.flaky_platform
               [Sample.ep3; Sample.undated; Sample.ep2; Sample.untitled])))
            Sample.cfgB
            (mkFeed [Sample.ep3; Sample.undated; Sample.ep2; Sample.untitled])
            [_] [_] _ (Rejection "Throttled") _ _ _ _ _);
    vm_compute; reflexivity.
Defined.

(** ** The composed message *)

Lemma append_assoc (a b c : string) : ((a ++ b) ++ c = a ++ (b ++ c))%string.
Proof.
  induction a as [|ch a IH]; [reflexivity|].
  change (String ch ((a ++ b) ++ c) = String ch (a ++ (b ++ c)))%string.
  now rewrite IH.
Qed.

Lemma buildMessageA_head (ttl url : string) (d : Z) :
  PolicyA.buildMessage ttl d url =
    (message_head ttl (PolicyA.formatJstDateTime d) ++ JS.LF ++ "- URL: " ++ url)%string.
Proof.
  unfold PolicyA.buildMessage, message_head, JS.join.
  cbn [String.concat]. now rewrite !append_assoc.
Qed.

Lemma buildMessageB_head (ttl : string) (d : Z) :
  PolicyB.buildMessage ttl d = message_head ttl (PolicyB.formatJstDateTime d).
Proof. reflexivity. Qed.



(** The publish call of the second variant's loop body for a fresh entry. *)
Lemma notify_if_fresh_published (P : Platform) (sns : SNSClient) (cfg : PolicyB.Config)
    (item : RssItem) (t : Z) (sent : list PublishInput) :
  publishTime P item = Some t ->
  cutoff P < t ->
  snd (PolicyB.notify_if_fresh P sns cfg (cutoff P) item sent) =
    (sent ++ [ {| TopicArn := PolicyB.topicArn cfg; Subject := SUBJECT;
                  Message := PolicyB.buildMessage (JS.or (title item) "タイトルなし") t |} ])%list.
Proof.
  intros Ht Hfresh. rewrite notify_if_fresh_run. unfold notificationB.
  rewrite Ht. apply Z.ltb_lt in Hfresh. rewrite Hfresh. cbn [deliver].
  destruct (client_send P sns sent _); reflexivity.
Qed.

(** C7: an absent title is replaced by the placeholder title, in the
    first variant whatever the link is and in the second variant as well;
    an absent link is replaced by the placeholder URL in the first
    variant, whatever the title is, and the message of the first variant
    ends with the URL line; the message of the second variant is the
    common head alone, for every entry: it ends with the date line and has
    no URL line. *)
Theorem composer_fallbacks (P : Platform) (sns : SNSClient) (cfgA : PolicyA.Config)
    (cfgB : PolicyB.Config) (item : RssItem) (t : Z) (sent : list PublishInput) :
  (title item = None ->
   PolicyA.display_title (PolicyA.getItemDisplay item) = "タイトルなし"%string) /\
  (link item = None ->
   PolicyA.display_url (PolicyA.getItemDisplay item) = "URLなし"%string) /\
  Message (notificationA cfgA item t) =
    (message_head (PolicyA.display_title (PolicyA.getItemDisplay item))
       (PolicyA.formatJstDateTime t)
       ++ JS.LF ++ "- URL: " ++ PolicyA.display_url (PolicyA.getItemDisplay item))%string /\
  (publishTime P item = Some t -> cutoff P < t -> title item = None ->
   snd (PolicyB.notify_if_fresh P sns cfgB (cutoff P) item sent) =
     (sent ++ [ {| TopicArn := PolicyB.topicArn cfgB; Subject := SUBJECT;
                   Message := message_head "タイトルなし"
                                (PolicyB.formatJstDateTime t) |} ])%list) /\
  (publishTime P item = Some t -> cutoff P < t ->
   snd (PolicyB.notify_if_fresh P sns cfgB (cutoff P) item sent) =
     (sent ++ [ {| TopicArn := PolicyB.topicArn cfgB; Subject := SUBJECT;
                   Message := message_head (JS.or (title item) "タイトルなし")
                                (PolicyB.formatJstDateTime t) |} ])%list).
Proof.
  split; [|split; [|split; [|split]]].
  - intros Htitle. unfold PolicyA.getItemDisplay.
    cbn [PolicyA.display_title]. now rewrite Htitle.
  - intros Hlink. unfold PolicyA.getItemDisplay.
    cbn [PolicyA.display_url]. now rewrite Hlink.
  - unfold notificationA. cbn [Message]. apply buildMessageA_head.
  - intros Ht Hfresh Htitle.
    rewrite (notify_if_fresh_published P sns cfgB item t sent Ht Hfresh).
    now rewrite Htitle.
  - intros Ht Hfresh.
    exact (notify_if_fresh_published P sns cfgB item t sent Ht Hfresh).
Qed.

(** An entry that lacks the title alone, and one that lacks the link
    alone. *)
Lemma composer_fallbacks_witness :
  let P := Sample.platform [Sample.no_title] in
  Message (notificationA Sample.cfgA Sample.no_title 1710480600000) =
    (message_head "タイトルなし" "2024/03/15 14:30 (JST)"
       ++ JS.LF ++ "- URL: https://example.com/ep3")%string /\
  Message (notificationA Sample.cfgA Sample.no_link 1710480600000) =
    (message_head "Ep3" "2024/03/15 14:30 (JST)" ++ JS.LF ++ "- URL: URLなし")%string /\
  snd (PolicyB.notify_if_fresh P (mkSNSClient DEFAULT_REGION) Sample.cfgB (cutoff P)
         Sample.no_title []) =
    [ {| TopicArn := Sample.TOPIC; Subject := SUBJECT;
         Message := message_head "タイトルなし"
                      (PolicyB.formatJstDateTime 1710480600000) |} ] /\
  snd (PolicyB.notify_if_fresh P (mkSNSClient DEFAULT_REGION) Sample.cfgB (cutoff P)
         Sample.no_link []) =
    [ {| TopicArn := Sample.TOPIC; Subject := SUBJECT;
         Message := message_head "Ep3" (PolicyB.formatJstDateTime 1710480600000) |} ].
Proof.
  destruct (composer_fallbacks (Sample.platform [Sample.no_title])
              (mkSNSClient DEFAULT_REGION) Sample.cfgA Sample.cfgB
              Sample.no_title 1710480600000 [])
    as (Htitle & _ & Hmsg & HB & _).
  destruct (composer_fallbacks (Sample.platform [Sample.no_title])
              (mkSNSClient DEFAULT_REGION) Sample.cfgA Sample.cfgB
              Sample.no_link 1710480600000 [])
    as (_ & Hlink & Hmsg' & _ & HB').
  split; [|split; [|split]].
  - rewrite Hmsg, (Htitle eq_refl). reflexivity.
  - rewrite Hmsg', (Hlink eq_refl). reflexivity.
  - exact (HB eq_refl eq_refl eq_refl).
  - exact (HB' eq_refl eq_refl).
Defined.



(** ** Loading the configuration *)

Lemma truthy_false_missing (env : gmap string string) (k : string) :
  JS.truthy (env !! k) = false <-> missing env k.
Proof.
  unfold JS.truthy, missing. destruct (env !! k) as [s|].
  - destruct (String.eqb_spec s ""); cbn [negb]; split.
    + intros _. right. now subst.
    + reflexivity.
    + discriminate.
    + intros [H|H]; [discriminate|]. now inversion H.
  - split; [now left|reflexivity].
Qed.

(** C8, as the code has it: [getConfigFromEnv] throws exactly when a
    required value is absent or is the empty string ([TOPIC_ARN] in the
    first variant, [KEY] or [TOPIC_ARN] in the second); the region of the
    configuration it returns is [AWS_REGION] when that is present and the
    default region otherwise; and when it throws, the invocation fails with
    its error without a publish call. *)
Theorem getConfigFromEnv_throws_iff_missing (P : Platform) :
  (is_throw (PolicyA.getConfigFromEnv P) <-> missing (process_env P) "TOPIC_ARN") /\
  (is_throw (PolicyB.getConfigFromEnv P) <->
     missing (process_env P) "KEY" \/ missing (process_env P) "TOPIC_ARN") /\
  (forall cfg, PolicyA.getConfigFromEnv P = Ok cfg ->
     PolicyA.region cfg =
       match process_env P !! "AWS_REGION" with
       | Some r => r
       | None => DEFAULT_REGION
       end) /\
  (forall cfg, PolicyB.getConfigFromEnv P = Ok cfg ->
     PolicyB.region cfg =
       match process_env P !! "AWS_REGION" with
       | Some r => r
       | None => DEFAULT_REGION
       end) /\
  (forall e, PolicyA.getConfigFromEnv P = Throw e ->
     run (PolicyA.handler P) = (Throw e, [])) /\
  (forall e, PolicyB.getConfigFromEnv P = Throw e ->
     run (PolicyB.handler P) = (Throw e, [])).
Proof.
  repeat split.
  - intros [e He]. apply truthy_false_missing.
    unfold PolicyA.getConfigFromEnv in He.
    destruct (JS.truthy (process_env P !! "TOPIC_ARN")); [discriminate|reflexivity].
  - intros H. apply truthy_false_missing in H.
    unfold PolicyA.getConfigFromEnv. rewrite H. eexists. reflexivity.
  - intros [e He]. unfold PolicyB.getConfigFromEnv in He.
    destruct (JS.truthy (process_env P !! "KEY")) eqn:Hk.
    + destruct (JS.truthy (process_env P !! "TOPIC_ARN")) eqn:Ht; [discriminate|].
      right. now apply truthy_false_missing.
    + left. now apply truthy_false_missing.
  - intros [H|H]; apply truthy_false_missing in H;
      unfold PolicyB.getConfigFromEnv; rewrite H.
    + eexists. reflexivity.
    + rewrite orb_true_r. eexists. reflexivity.
  - intros cfg Hcfg. unfold PolicyA.getConfigFromEnv in Hcfg.
    destruct (negb _); [discriminate|]. inversion Hcfg. reflexivity.
  - intros cfg Hcfg. unfold PolicyB.getConfigFromEnv in Hcfg.
    destruct (_ || _); [discriminate|]. inversion Hcfg. reflexivity.
  - intros e He. now rewrite handlerA_run, He.
  - intros e He. now rewrite handlerB_run, He.
Qed.

(** An environment in which [TOPIC_ARN] is present and empty: the first
    variant throws although no required value is absent. *)
Lemma config_throws_iff_absent_counterexample :
  let P := Sample.platform_with_env (<["TOPIC_ARN" := ""%string]> ∅) in
  ~ (is_throw (PolicyA.getConfigFromEnv P) <-> process_env P !! "TOPIC_ARN" = None).
Proof.
  intros P [H _].
  assert (Hthrow : is_throw (PolicyA.getConfigFromEnv P)) by (eexists; reflexivity).
  apply H in Hthrow. vm_compute in Hthrow. discriminate Hthrow.
Qed.

(** ** The rendered date *)

(** C3 at the instant 2024-03-15T05:30:00Z: the first variant renders it
    as the claim says; the second variant joins the output of five
    single-field formatters, which in this locale carry the suffixes of the
    fields, and renders another string. *)
Theorem formatJstDateTime_sample :
  PolicyA.formatJstDateTime 1710480600000 = "2024/03/15 14:30 (JST)"%string /\
  PolicyB.formatJstDateTime 1710480600000 = "2024年/03月/15日 14時:30 (JST)"%string.
Proof. split; vm_compute; reflexivity. Qed.


Lemma all_from_spec (n : nat) (a : Z) (p : Z -> bool) :
  all_from n a p = true -> forall z, a <= z < a + Z.of_nat n -> p z = true.
Proof.
  revert a. induction n as [|k IH]; intros a Hall z Hz; [lia|].
  cbn [all_from] in Hall. apply andb_true_iff in Hall as [Ha Hrest].
  destruct (Z.eq_dec z a) as [->|Hne]; [exact Ha|].
  apply (IH (a + 1) Hrest). lia.
Qed.

Lemma all_below_spec (bound : Z) (p : Z -> bool) :
  all_below bound p = true -> forall z, 0 <= z < bound -> p z = true.
Proof.
  intros Hall z Hz. apply (all_from_spec (Z.to_nat bound) 0 p Hall). lia.
Qed.

Lemma two_digits_check :
  all_below 100
    (fun n => String.eqb (JS.padStart 2 "0" (Intl.decimal n)) (two_digits n)) = true.
Proof. vm_compute. reflexivity. Qed.

Lemma decimal_two_digits (n : Z) :
  0 <= n < 100 -> JS.padStart 2 "0" (Intl.decimal n) = two_digits n.
Proof.
  intros Hn. apply String.eqb_eq.
  exact (all_below_spec _ _ two_digits_check n Hn).
Qed.

Lemma four_digits_check :
  all_below 10000
    (fun n => (n <? 1000)
              || String.eqb (JS.padStart 1 "0" (Intl.decimal n)) (four_digits n)) = true.
Proof. vm_compute. reflexivity. Qed.

Lemma decimal_four_digits (n : Z) :
  1000 <= n < 10000 -> JS.padStart 1 "0" (Intl.decimal n) = four_digits n.
Proof.
  intros Hn. apply String.eqb_eq.
  pose proof (all_below_spec _ _ four_digits_check n ltac:(lia)) as H.
  cbv beta in H.
  apply orb_true_iff in H as [H|H]; [apply Z.ltb_lt in H; lia|exact H].
Qed.

Lemma civil_of_doe_bounds (doe : Z) :
  0 <= doe < 146097 ->
  let '(y, m, d) := civil_of_doe doe in
  0 <= y <= 400 /\ 1 <= m <= 12 /\ 1 <= d <= 31 /\ (doe <= 146036 -> y <= 399).
Proof.
  intros H. unfold civil_of_doe. cbv zeta.
  set (yoe := (doe - doe / 1460 + doe / 36524 - doe / 146096) / 365).
  set (doy := doe - (365 * yoe + yoe / 4 - yoe / 100)).
  assert (Hb : 0 <= yoe <= 399 /\ 0 <= doy <= 365
               /\ (doe <= 146036 -> yoe <= 398 \/ doy < 306)).
  { subst doy yoe. Z.div_mod_to_equations. lia. }
  clearbody doy. clearbody yoe.
  set (mp := (5 * doy + 2) / 153).
  assert (Hmp : 0 <= mp <= 11 /\ 1 <= doy - (153 * mp + 2) / 5 + 1 <= 31
                /\ (doy < 306 -> mp < 10)).
  { subst mp. Z.div_mod_to_equations. lia. }
  clearbody mp.
  destruct (Z.ltb_spec mp 10); destruct (Z.leb_spec (mp + 3) 2);
    destruct (Z.leb_spec (mp - 9) 2); lia.
Qed.

Lemma civil_from_days_era (z : Z) :
  Intl.civil_from_days z =
    let era := (z + 719468) / 146097 in
    let '(y, m, d) := civil_of_doe (z + 719468 - era * 146097) in
    (y + era * 400, m, d).
Proof.
  unfold Intl.civil_from_days, civil_of_doe. cbv zeta.
  set (doe := z + 719468 - (z + 719468) / 146097 * 146097).
  set (yoe := (doe - doe / 1460 + doe / 36524 - doe / 146096) / 365).
  set (doy := doe - (365 * yoe + yoe / 4 - yoe / 100)).
  set (mp := (5 * doy + 2) / 153).
  set (m := if mp <? 10 then mp + 3 else mp - 9).
  clearbody m yoe. destruct (m <=? 2); f_equal; f_equal; ring.
Qed.

(** The calendar fields of a covered instant are in range. *)
Lemma field_value_bounds (t : Z) :
  JST_FIRST <= t <= JST_LAST ->
  1000 <= Intl.field_value "year" t < 10000 /\
  1 <= Intl.field_value "month" t <= 12 /\
  1 <= Intl.field_value "day" t <= 31 /\
  0 <= Intl.field_value "hour" t < 24 /\
  0 <= Intl.field_value "minute" t < 60.
Proof.
  unfold JST_FIRST, JST_LAST. intros Ht.
  unfold Intl.field_value.
  change (Intl.TOKYO_OFFSET) with 32400000.
  change (Intl.MS_PER_DAY) with 86400000.
  change (Intl.MS_PER_HOUR) with 3600000.
  change (Intl.MS_PER_MINUTE) with 60000.
  set (local := t + 32400000).
  assert (Hdays : -6689 <= local / 86400000 < 2932897).
  { subst local. split.
    - apply Z.div_le_lower_bound; lia.
    - apply Z.div_lt_upper_bound; lia. }
  set (days := local / 86400000) in *.
  rewrite civil_from_days_era. cbv zeta.
  set (era := (days + 719468) / 146097).
  set (doe := days + 719468 - era * 146097).
  assert (Hdoe : 0 <= doe < 146097).
  { subst doe era. pose proof (Z.mod_pos_bound (days + 719468) 146097 ltac:(lia)) as Hm.
    rewrite Z.mod_eq in Hm by lia. lia. }
  assert (Hera : 4 <= era < 25).
  { subst era. split.
    - apply Z.div_le_lower_bound; lia.
    - apply Z.div_lt_upper_bound; lia. }
  assert (Hlast : era = 24 -> doe <= 146036) by (subst doe; lia).
  pose proof (civil_of_doe_bounds doe Hdoe) as Hok.
  destruct (civil_of_doe doe) as [[y m] d].
  destruct Hok as (Hy & Hm & Hd & Hy').
  cbn [String.eqb Ascii.eqb Bool.eqb andb].
  assert (Hyear : 1000 <= y + era * 400 < 10000) by lia.
  assert (Hpos : (0 <? y + era * 400) = true) by (apply Z.ltb_lt; lia).
  rewrite Hpos.
  repeat split; try lia.
  - apply Z.div_pos; [apply Z.mod_pos_bound|]; lia.
  - apply Z.div_lt_upper_bound; [lia|]. apply Z.mod_pos_bound; lia.
  - apply Z.div_pos; [apply Z.mod_pos_bound|]; lia.
  - apply Z.div_lt_upper_bound; [lia|]. apply Z.mod_pos_bound; lia.
Qed.

Lemma parts_of_full (y mo d h mi : string) :
  let parts : gmap string string :=
    fold_left
      (fun acc p =>
         if negb (String.eqb (Intl.type p) "literal")
         then <[Intl.type p := Intl.value p]> acc
         else acc)
      [ Intl.mkPart "year" y; Intl.mkPart "literal" "/"; Intl.mkPart "month" mo;
        Intl.mkPart "literal" "/"; Intl.mkPart "day" d; Intl.mkPart "literal" " ";
        Intl.mkPart "hour" h; Intl.mkPart "literal" ":"; Intl.mkPart "minute" mi ]
      ∅ in
  parts !! "year" = Some y /\ parts !! "month" = Some mo /\ parts !! "day" = Some d /\
  parts !! "hour" = Some h /\ parts !! "minute" = Some mi.
Proof. cbv zeta. repeat split; vm_compute; reflexivity. Qed.

(** The first variant joins the five numeric parts of the formatter. *)
Lemma formatJstDateTimeA_parts (t : Z) :
  let part w field := JS.padStart w "0" (Intl.decimal (Intl.field_value field t)) in
  PolicyA.formatJstDateTime t =
    (part 1%nat "year" ++ "/" ++ part 2%nat "month" ++ "/" ++ part 2%nat "day" ++ " "
       ++ JS.padStart 2 "0" (part 2%nat "hour") ++ ":"
       ++ JS.padStart 2 "0" (part 2%nat "minute") ++ " (JST)")%string.
Proof.
  cbv zeta. unfold PolicyA.formatJstDateTime.
  destruct (parts_of_full
              (JS.padStart 1 "0" (Intl.decimal (Intl.field_value "year" t)))
              (JS.padStart 2 "0" (Intl.decimal (Intl.field_value "month" t)))
              (JS.padStart 2 "0" (Intl.decimal (Intl.field_value "day" t)))
              (JS.padStart 2 "0" (Intl.decimal (Intl.field_value "hour" t)))
              (JS.padStart 2 "0" (Intl.decimal (Intl.field_value "minute" t))))
    as (Hy & Hmo & Hd & Hh & Hmi).
  cbv zeta in Hy, Hmo, Hd, Hh, Hmi.
  change (Intl.formatToParts Intl.DateTimeFormat_full t) with
    [ Intl.mkPart "year" (JS.padStart 1 "0" (Intl.decimal (Intl.field_value "year" t)));
      Intl.mkPart "literal" "/";
      Intl.mkPart "month" (JS.padStart 2 "0" (Intl.decimal (Intl.field_value "month" t)));
      Intl.mkPart "literal" "/";
      Intl.mkPart "day" (JS.padStart 2 "0" (Intl.decimal (Intl.field_value "day" t)));
      Intl.mkPart "literal" " ";
      Intl.mkPart "hour" (JS.padStart 2 "0" (Intl.decimal (Intl.field_value "hour" t)));
      Intl.mkPart "literal" ":";
      Intl.mkPart "minute" (JS.padStart 2 "0" (Intl.decimal (Intl.field_value "minute" t))) ].
  cbv zeta. rewrite Hy, Hmo, Hd, Hh, Hmi. reflexivity.
Qed.

Lemma padStart_two_digits (n : Z) : JS.padStart 2 "0" (two_digits n) = two_digits n.
Proof. reflexivity. Qed.

(** On every covered instant the first variant renders the calendar fields
    of Asia/Tokyo as [YYYY/MM/DD HH:MM (JST)]: a four-digit year and two
    digits each for the month, the day, the hour from 00 to 23 and the
    minute. *)
Theorem formatJstDateTimeA_renders (t : Z) :
  JST_FIRST <= t <= JST_LAST ->
  PolicyA.formatJstDateTime t =
    (four_digits (Intl.field_value "year" t) ++ "/"
       ++ two_digits (Intl.field_value "month" t) ++ "/"
       ++ two_digits (Intl.field_value "day" t) ++ " "
       ++ two_digits (Intl.field_value "hour" t) ++ ":"
       ++ two_digits (Intl.field_value "minute" t) ++ " (JST)")%string.
Proof.
  intros Ht.
  destruct (field_value_bounds t Ht) as (Hy & Hmo & Hd & Hh & Hmi).
  rewrite formatJstDateTimeA_parts. cbv zeta.
  rewrite decimal_four_digits by exact Hy.
  rewrite !decimal_two_digits by lia.
  now rewrite !padStart_two_digits.
Qed.

(** On every covered instant the second variant renders the year followed
    by its suffix, so its output differs from the first variant's from the
    fifth byte on. *)
Theorem formatJstDateTimeB_renders (t : Z) :
  JST_FIRST <= t <= JST_LAST ->
  PolicyB.formatJstDateTime t =
    (four_digits (Intl.field_value "year" t) ++ "年/"
       ++ two_digits (Intl.field_value "month" t) ++ "月/"
       ++ two_digits (Intl.field_value "day" t) ++ "日 "
       ++ two_digits (Intl.field_value "hour" t) ++ "時:"
       ++ JS.padStart 1 "0" (Intl.decimal (Intl.field_value "minute" t)) ++ " (JST)")%string.
Proof.
  intros Ht.
  destruct (field_value_bounds t Ht) as (Hy & Hmo & Hd & Hh & Hmi).
  unfold PolicyB.formatJstDateTime, Intl.format, Intl.formatToParts,
    Intl.DateTimeFormat_year, Intl.DateTimeFormat_month, Intl.DateTimeFormat_day,
    Intl.DateTimeFormat_hour, Intl.DateTimeFormat_minute.
  cbn [map Intl.format_item Intl.value String.concat].
  rewrite decimal_four_digits by exact Hy.
  rewrite !decimal_two_digits by lia.
  rewrite !append_assoc. reflexivity.
Qed.

Lemma four_digits_append (n : Z) (s : string) :
  (four_digits n ++ s)%string =
    String (Intl.digit (n / 1000))
      (String (Intl.digit (n / 100 mod 10))
         (String (Intl.digit (n mod 100 / 10))
            (String (Intl.digit (n mod 100 mod 10)) s))).
Proof. reflexivity. Qed.

(** X17: on every covered instant the two variants render different strings. *)
Theorem formatJstDateTime_variants_differ (t : Z) :
  JST_FIRST <= t <= JST_LAST ->
  PolicyB.formatJstDateTime t <> PolicyA.formatJstDateTime t.
Proof.
  intros Ht.
  rewrite (formatJstDateTimeA_renders t Ht), (formatJstDateTimeB_renders t Ht).
  rewrite !four_digits_append.
  intros H. injection H as H. discriminate H.
Qed.

Lemma formatJstDateTime_variants_differ_witness :
  PolicyB.formatJstDateTime 1710480600000 <> PolicyA.formatJstDateTime 1710480600000.
Proof.
  apply (formatJstDateTime_variants_differ 1710480600000).
  unfold JST_FIRST, JST_LAST. lia.
Defined.

(** ** Further properties of the handlers *)

Lemma publishTime_ext (P P' : Platform) (item : RssItem) :
  Date_parse P = Date_parse P' -> publishTime P item = publishTime P' item.
Proof. intros H. unfold publishTime. now rewrite H. Qed.

Lemma cutoff_ext (P P' : Platform) : Date_now P = Date_now P' -> cutoff P = cutoff P'.
Proof. intros H. unfold cutoff. now rewrite H. Qed.

Lemma notificationB_ext (P P' : Platform) (cfg cfg' : PolicyB.Config) (item : RssItem) :
  Date_parse P = Date_parse P' ->
  Date_now P = Date_now P' ->
  PolicyB.topicArn cfg = PolicyB.topicArn cfg' ->
  notificationB P cfg item = notificationB P' cfg' item.
Proof.
  intros Hp Hn Ht. unfold notificationB.
  now rewrite (publishTime_ext P P' item Hp), (cutoff_ext P P' Hn), Ht.
Qed.

Lemma omap_notificationB_ext (P P' : Platform) (cfg cfg' : PolicyB.Config)
    (its : list RssItem) :
  Date_parse P = Date_parse P' ->
  Date_now P = Date_now P' ->
  PolicyB.topicArn cfg = PolicyB.topicArn cfg' ->
  omap (notificationB P cfg) its = omap (notificationB P' cfg') its.
Proof.
  intros Hp Hn Ht. induction its as [|item its IH]; [reflexivity|].
  cbn [omap list_omap]. now rewrite IH, (notificationB_ext P P' cfg cfg' item Hp Hn Ht).
Qed.

Lemma deliver_ext (P P' : Platform) (sns : SNSClient) (msgs sent : list PublishInput) :
  (forall sent' input, client_send P sns sent' input = client_send P' sns sent' input) ->
  deliver P sns msgs sent = deliver P' sns msgs sent.
Proof.
  intros H. revert sent. induction msgs as [|m msgs IH]; intros sent; [reflexivity|].
  cbn [deliver]. rewrite H. destruct (client_send P' sns sent m); [apply IH|reflexivity].
Qed.

Lemma deliver_throws (P : Platform) (sns : SNSClient) (msgs sent : list PublishInput)
    (e : exn) :
  fst (deliver P sns msgs sent) = Throw e ->
  exists sent' input, client_send P sns sent' input = Throw e.
Proof.
  revert sent. induction msgs as [|m msgs IH]; intros sent H; [discriminate|].
  cbn [deliver] in H. destruct (client_send P sns sent m) as [r|e'] eqn:Hm.
  - exact (IH _ H).
  - cbn in H. inversion H; subst. now exists sent, m.
Qed.

Lemma getConfigA_topic (P : Platform) (cfg : PolicyA.Config) :
  PolicyA.getConfigFromEnv P = Ok cfg ->
  process_env P !! "TOPIC_ARN" = Some (PolicyA.topicArn cfg)
  /\ PolicyA.region cfg = configured_region P.
Proof.
  unfold PolicyA.getConfigFromEnv, configured_region. intros H.
  destruct (process_env P !! "TOPIC_ARN") as [t|]; [|discriminate].
  destruct (negb _); [discriminate|]. now inversion H.
Qed.

Lemma getConfigB_topic (P : Platform) (cfg : PolicyB.Config) :
  PolicyB.getConfigFromEnv P = Ok cfg ->
  process_env P !! "TOPIC_ARN" = Some (PolicyB.topicArn cfg)
  /\ PolicyB.region cfg = configured_region P.
Proof.
  unfold PolicyB.getConfigFromEnv, configured_region. intros H.
  destruct (process_env P !! "TOPIC_ARN") as [t|].
  - destruct (_ || _); [discriminate|]. now inversion H.
  - cbn in H. rewrite orb_true_r in H. discriminate.
Qed.

(** X1: the first variant publishes only for the second entry of a feed whose
    latest entry is fresh: a publish call implies that the configuration
    loaded, the fetch returned at least two entries, the latest one has a
    timestamp strictly after the cutoff and the second one has a
    timestamp; the call is then the single one for the second entry. *)
Theorem policyA_publishes_only_when_gated (P : Platform) :
  published (PolicyA.handler P) <> [] ->
  exists cfg latest second rest t0 t1,
    PolicyA.getConfigFromEnv P = Ok cfg /\
    parseURL P RSS_URL = Ok (mkFeed (latest :: second :: rest)) /\
    publishTime P latest = Some t0 /\
    cutoff P < t0 /\
    publishTime P second = Some t1 /\
    published (PolicyA.handler P) = [notificationA cfg second t1].
Proof.
  unfold published. rewrite handlerA_run. intros H.
  destruct (PolicyA.getConfigFromEnv P) as [cfg|e] eqn:Hcfg; [|now contradict H].
  destruct (parseURL P RSS_URL) as [[its]|e] eqn:Hfeed; [|now contradict H].
  cbn [items] in *.
  destruct its as [|latest [|second rest]]; try now contradict H.
  destruct (publishTime P latest) as [t0|] eqn:H0; [|now contradict H].
  destruct (publishTime P second) as [t1|] eqn:H1; [|now contradict H].
  destruct (cutoff P <? t0) eqn:Hfresh; [|now contradict H].
  exists cfg, latest, second, rest, t0, t1.
  repeat split; try reflexivity; try assumption.
  - now apply Z.ltb_lt.
  - apply deliver_one_published.
Qed.

Lemma policyA_publishes_only_when_gated_witness :
  exists cfg latest second rest t0 t1,
    PolicyA.getConfigFromEnv (Sample.platform [Sample.ep3; Sample.ep1]) = Ok cfg /\
    parseURL (Sample.platform [Sample.ep3; Sample.ep1]) RSS_URL
      = Ok (mkFeed (latest :: second :: rest)) /\
    publishTime (Sample.platform [Sample.ep3; Sample.ep1]) latest = Some t0 /\
    cutoff (Sample.platform [Sample.ep3; Sample.ep1]) < t0 /\
    publishTime (Sample.platform [Sample.ep3; Sample.ep1]) second = Some t1 /\
    published (PolicyA.handler (Sample.platform [Sample.ep3; Sample.ep1]))
      = [notificationA cfg second t1].
Proof.
  apply (policyA_publishes_only_when_gated (Sample.platform [Sample.ep3; Sample.ep1])).
  vm_compute. discriminate.
Defined.

(** X4: a failed fetch is not caught: once the configuration has loaded, each
    variant fails with the error of the fetch and issues no publish
    call. *)
Theorem fetch_failure_propagates (P : Platform) (e : exn) :
  parseURL P RSS_URL = Throw e ->
  (is_ok (PolicyA.getConfigFromEnv P) -> run (PolicyA.handler P) = (Throw e, [])) /\
  (is_ok (PolicyB.getConfigFromEnv P) -> run (PolicyB.handler P) = (Throw e, [])).
Proof.
  intros Hfetch. split; intros [cfg Hcfg].
  - now rewrite handlerA_run, Hcfg, Hfetch.
  - now rewrite handlerB_run, Hcfg, Hfetch.
Qed.

Lemma fetch_failure_propagates_witness :
  let P := with_feed (Sample.platform []) (Throw (Rejection "ETIMEDOUT")) in
  run (PolicyA.handler P) = (Throw (Rejection "ETIMEDOUT"), []) /\
  run (PolicyB.handler P) = (Throw (Rejection "ETIMEDOUT"), []).
Proof.
  destruct (fetch_failure_propagates
              (with_feed (Sample.platform []) (Throw (Rejection "ETIMEDOUT")))
              (Rejection "ETIMEDOUT") eq_refl) as [HA HB].
  split; [apply HA|apply HB]; eexists; vm_compute; reflexivity.
Defined.

(** X3: on an empty feed both variants return without a publish call. *)
Theorem empty_feed_publishes_nothing (P : Platform) :
  parseURL P RSS_URL = Ok (mkFeed []) ->
  (is_ok (PolicyA.getConfigFromEnv P) -> run (PolicyA.handler P) = (Ok tt, [])) /\
  (is_ok (PolicyB.getConfigFromEnv P) -> run (PolicyB.handler P) = (Ok tt, [])).
Proof.
  intros Hfetch. split; intros [cfg Hcfg].
  - now rewrite handlerA_run, Hcfg, Hfetch.
  - now rewrite handlerB_run, Hcfg, Hfetch.
Qed.

Lemma empty_feed_publishes_nothing_witness :
  run (PolicyA.handler (Sample.platform [])) = (Ok tt, []) /\
  run (PolicyB.handler (Sample.platform [])) = (Ok tt, []).
Proof.
  destruct (empty_feed_publishes_nothing (Sample.platform []) eq_refl) as [HA HB].
  split; [apply HA|apply HB]; eexists; vm_compute; reflexivity.
Defined.

(** X2: when the second entry has no timestamp that parses, the first variant
    returns without a publish call, however fresh the latest entry is: it
    does not fall back to the latest entry or to a later one. *)
Theorem policyA_undated_second_publishes_nothing (P : Platform) (cfg : PolicyA.Config)
    (latest second : RssItem) (rest : list RssItem) :
  PolicyA.getConfigFromEnv P = Ok cfg ->
  parseURL P RSS_URL = Ok (mkFeed (latest :: second :: rest)) ->
  publishTime P second = None ->
  run (PolicyA.handler P) = (Ok tt, []).
Proof.
  intros Hcfg Hfeed H1.
  rewrite handlerA_run, Hcfg, Hfeed. cbn [items]. rewrite H1.
  now destruct (publishTime P latest).
Qed.

Lemma policyA_undated_second_publishes_nothing_witness :
  cutoff (Sample.platform [Sample.ep3; Sample.misdated; Sample.ep2]) < 1710480600000 /\
  publishTime (Sample.platform [Sample.ep3; Sample.misdated; Sample.ep2]) Sample.ep3
    = Some 1710480600000 /\
  run (PolicyA.handler (Sample.platform [Sample.ep3; Sample.misdated; Sample.ep2]))
    = (Ok tt, []).
Proof.
  split; [reflexivity|]. split; [reflexivity|].
  apply (policyA_undated_second_publishes_nothing
           (Sample.platform [Sample.ep3; Sample.misdated; Sample.ep2]) Sample.cfgA
           Sample.ep3 Sample.misdated [Sample.ep2]);
    vm_compute; reflexivity.
Defined.

(** X5: the errors of an invocation: a handler fails only with the error of
    its configuration, the error of the fetch, or the error of a publish
    call made through the client of the configured region.  In particular
    the reads of [items[0]] and [items[1]] never fail. *)
Theorem handler_errors (P : Platform) (e : exn) :
  (fst (run (PolicyA.handler P)) = Throw e ->
   PolicyA.getConfigFromEnv P = Throw e \/
   parseURL P RSS_URL = Throw e \/
   exists sent input,
     client_send P (mkSNSClient (configured_region P)) sent input = Throw e) /\
  (fst (run (PolicyB.handler P)) = Throw e ->
   PolicyB.getConfigFromEnv P = Throw e \/
   parseURL P RSS_URL = Throw e \/
   exists sent input,
     client_send P (mkSNSClient (configured_region P)) sent input = Throw e).
Proof.
  split; intros H.
  - rewrite handlerA_run in H.
    destruct (PolicyA.getConfigFromEnv P) as [cfg|e'] eqn:Hcfg;
      [|cbn in H; inversion H; subst; now left].
    destruct (parseURL P RSS_URL) as [feed|e'];
      [|cbn in H; inversion H; subst; now right; left].
    right. right.
    destruct (getConfigA_topic P cfg Hcfg) as [_ Hregion].
    unfold PolicyA.createSnsClient in H. rewrite Hregion in H.
    destruct (items feed) as [|latest [|second rest]]; try discriminate.
    destruct (publishTime P latest) as [t0|]; [|discriminate].
    destruct (publishTime P second) as [t1|]; [|discriminate].
    destruct (cutoff P <? t0); [|discriminate].
    exact (deliver_throws _ _ _ _ _ H).
  - rewrite handlerB_run in H.
    destruct (PolicyB.getConfigFromEnv P) as [cfg|e'] eqn:Hcfg;
      [|cbn in H; inversion H; subst; now left].
    destruct (parseURL P RSS_URL) as [feed|e'];
      [|cbn in H; inversion H; subst; now right; left].
    right. right.
    destruct (getConfigB_topic P cfg Hcfg) as [_ Hregion].
    unfold PolicyB.createSnsClient in H. rewrite Hregion in H.
    exact (deliver_throws _ _ _ _ _ H).
Qed.

(** The sample transport that rejects the second call: the error of the
    second variant is the transport's. *)
Lemma handler_errors_witness :
  let P := Sample.flaky_platform [Sample.ep3; Sample.ep2] in
  fst (run (PolicyB.handler P)) = Throw (Rejection "Throttled") /\
  exists sent input,
    client_send P (mkSNSClient (configured_region P)) sent input
      = Throw (Rejection "Throttled").
Proof.
  split; [vm_compute; reflexivity|].
  destruct (proj2 (handler_errors (Sample.flaky_platform [Sample.ep3; Sample.ep2])
                     (Rejection "Throttled")) eq_refl) as [H|[H|H]].
  - discriminate H.
  - discriminate H.
  - exact H.
Defined.

(** X6: every publish call of either variant goes to the topic named by
    [TOPIC_ARN] in the environment and carries the fixed subject. *)
Theorem publish_calls_go_to_configured_topic (P : Platform) :
  Forall (fun call => process_env P !! "TOPIC_ARN" = Some (TopicArn call)
                      /\ Subject call = SUBJECT)
    (published (PolicyA.handler P)) /\
  Forall (fun call => process_env P !! "TOPIC_ARN" = Some (TopicArn call)
                      /\ Subject call = SUBJECT)
    (published (PolicyB.handler P)).
Proof.
  unfold published. split.
  - rewrite handlerA_run.
    destruct (PolicyA.getConfigFromEnv P) as [cfg|e] eqn:Hcfg; [|constructor].
    destruct (parseURL P RSS_URL) as [feed|e]; [|constructor].
    destruct (items feed) as [|latest [|second rest]]; try constructor.
    destruct (publishTime P latest) as [t0|]; [|constructor].
    destruct (publishTime P second) as [t1|]; [|constructor].
    destruct (cutoff P <? t0); [|constructor].
    rewrite deliver_one_published. constructor; [|constructor].
    split; [|reflexivity]. exact (proj1 (getConfigA_topic P cfg Hcfg)).
  - rewrite handlerB_run.
    destruct (PolicyB.getConfigFromEnv P) as [cfg|e] eqn:Hcfg; [|constructor].
    destruct (parseURL P RSS_URL) as [feed|e]; [|constructor].
    destruct (deliver_sent_prefix P (PolicyB.createSnsClient (PolicyB.region cfg))
                (omap (notificationB P cfg) (items feed)) []) as [k ->].
    cbn [app]. apply Forall_take.
    induction (items feed) as [|item its IH]; [constructor|].
    cbn [omap list_omap].
    destruct (notificationB P cfg item) as [m|] eqn:Hm; [|exact IH].
    constructor; [|exact IH].
    unfold notificationB in Hm.
    destruct (publishTime P item) as [t|]; [|discriminate].
    destruct (cutoff P <? t); [|discriminate].
    inversion Hm; subst. cbn [TopicArn Subject].
    split; [|reflexivity]. exact (proj1 (getConfigB_topic P cfg Hcfg)).
Qed.

(** X7: the handlers reach the transport only through the client of the
    configured region ([AWS_REGION], or the default region): a transport
    that answers alike for that client gives the same invocation. *)
Theorem only_configured_region_is_used (P : Platform)
    (f : SNSClient -> list PublishInput -> PublishInput -> result string) :
  (forall sent input,
     f (mkSNSClient (configured_region P)) sent input
       = client_send P (mkSNSClient (configured_region P)) sent input) ->
  run (PolicyA.handler (with_transport P f)) = run (PolicyA.handler P) /\
  run (PolicyB.handler (with_transport P f)) = run (PolicyB.handler P).
Proof.
  intros Hf. split.
  - rewrite !handlerA_run.
    change (PolicyA.getConfigFromEnv (with_transport P f))
      with (PolicyA.getConfigFromEnv P).
    change (parseURL (with_transport P f) RSS_URL) with (parseURL P RSS_URL).
    destruct (PolicyA.getConfigFromEnv P) as [cfg|e] eqn:Hcfg; [|reflexivity].
    destruct (parseURL P RSS_URL) as [feed|e]; [|reflexivity].
    destruct (items feed) as [|latest [|second rest]]; try reflexivity.
    change (publishTime (with_transport P f)) with (publishTime P).
    change (cutoff (with_transport P f)) with (cutoff P).
    destruct (publishTime P latest) as [t0|]; [|reflexivity].
    destruct (publishTime P second) as [t1|]; [|reflexivity].
    destruct (cutoff P <? t0); [|reflexivity].
    apply deliver_ext. intros sent input.
    unfold PolicyA.createSnsClient.
    rewrite (proj2 (getConfigA_topic P cfg Hcfg)). apply Hf.
  - rewrite !handlerB_run.
    change (PolicyB.getConfigFromEnv (with_transport P f))
      with (PolicyB.getConfigFromEnv P).
    change (parseURL (with_transport P f) RSS_URL) with (parseURL P RSS_URL).
    destruct (PolicyB.getConfigFromEnv P) as [cfg|e] eqn:Hcfg; [|reflexivity].
    destruct (parseURL P RSS_URL) as [feed|e]; [|reflexivity].
    rewrite (omap_notificationB_ext (with_transport P f) P cfg cfg (items feed)
               eq_refl eq_refl eq_refl).
    apply deliver_ext. intros sent input.
    unfold PolicyB.createSnsClient.
    rewrite (proj2 (getConfigB_topic P cfg Hcfg)). apply Hf.
Qed.

(** The sample transport swapped for one that rejects every region but the
    default one. *)
Lemma only_configured_region_is_used_witness :
  let P := Sample.platform [Sample.ep3; Sample.ep2] in
  Sample.regional (mkSNSClient "us-east-1") [] (notificationA Sample.cfgA Sample.ep2 0)
    = Throw (Rejection "UnknownEndpoint") /\
  run (PolicyA.handler (with_transport P Sample.regional)) = run (PolicyA.handler P) /\
  run (PolicyB.handler (with_transport P Sample.regional)) = run (PolicyB.handler P).
Proof.
  split; [reflexivity|].
  apply (only_configured_region_is_used
           (Sample.platform [Sample.ep3; Sample.ep2]) Sample.regional).
  intros sent input. reflexivity.
Defined.

Lemma deliver_with_feed (P : Platform) (r : result Feed) (sns : SNSClient)
    (msgs sent : list PublishInput) :
  deliver (with_feed P r) sns msgs sent = deliver P sns msgs sent.
Proof. apply deliver_ext. reflexivity. Qed.

Lemma handlerA_run_with_feed (P : Platform) (its : list RssItem) :
  run (PolicyA.handler (with_feed P (Ok (mkFeed its)))) =
    match PolicyA.getConfigFromEnv P with
    | Ok cfg =>
      match its with
      | latest :: second :: _ =>
        match publishTime P latest, publishTime P second with
        | Some t0, Some t1 =>
          if cutoff P <? t0 then
            deliver P (PolicyA.createSnsClient (PolicyA.region cfg))
              [notificationA cfg second t1] []
          else (Ok tt, [])
        | _, _ => (Ok tt, [])
        end
      | _ => (Ok tt, [])
      end
    | Throw e => (Throw e, [])
    end.
Proof.
  rewrite handlerA_run.
  change (PolicyA.getConfigFromEnv (with_feed P (Ok (mkFeed its))))
    with (PolicyA.getConfigFromEnv P).
  destruct (PolicyA.getConfigFromEnv P) as [cfg|e]; [|reflexivity].
  cbn [with_feed parseURL items].
  destruct its as [|latest [|second rest]]; reflexivity.
Qed.

Lemma handlerB_run_with_feed (P : Platform) (its : list RssItem) :
  run (PolicyB.handler (with_feed P (Ok (mkFeed its)))) =
    match PolicyB.getConfigFromEnv P with
    | Ok cfg =>
      deliver P (PolicyB.createSnsClient (PolicyB.region cfg))
        (omap (notificationB P cfg) its) []
    | Throw e => (Throw e, [])
    end.
Proof.
  rewrite handlerB_run.
  change (PolicyB.getConfigFromEnv (with_feed P (Ok (mkFeed its))))
    with (PolicyB.getConfigFromEnv P).
  destruct (PolicyB.getConfigFromEnv P) as [cfg|e]; [|reflexivity].
  change (parseURL (with_feed P (Ok (mkFeed its))) RSS_URL) with (Ok (mkFeed its)).
  cbn [items]. rewrite deliver_with_feed.
  now rewrite (omap_notificationB_ext (with_feed P (Ok (mkFeed its))) P cfg cfg its
                 eq_refl eq_refl eq_refl).
Qed.

(** X9: the first variant reads the timestamp of the latest entry and the
    second entry, and nothing else of the feed: the title and link of the
    latest entry and all the entries after the second do not change the
    invocation. *)
Theorem policyA_reads_two_entries (P : Platform) (latest second : RssItem)
    (rest : list RssItem) :
  run (PolicyA.handler (with_feed P (Ok (mkFeed (latest :: second :: rest))))) =
  run (PolicyA.handler (with_feed P (Ok (mkFeed [timestamp_only latest; second])))).
Proof. now rewrite !handlerA_run_with_feed. Qed.

Lemma omap_notificationB_fresh (P : Platform) (cfg : PolicyB.Config)
    (its : list RssItem) :
  omap (notificationB P cfg) (List.filter (fresh P) its) = omap (notificationB P cfg) its.
Proof.
  induction its as [|item its IH]; [reflexivity|].
  cbn [List.filter]. destruct (fresh P item) eqn:Hf.
  - cbn [omap list_omap]. now rewrite IH.
  - cbn [omap list_omap]. rewrite IH.
    unfold fresh in Hf. unfold notificationB.
    destruct (publishTime P item) as [t|]; [|reflexivity]. now rewrite Hf.
Qed.

(** X12: the entries that are stale or have no timestamp that parses are
    invisible to the second variant: removing them from the feed changes
    neither the publish calls nor the outcome. *)
Theorem policyB_ignores_unfresh_entries (P : Platform) (its : list RssItem) :
  run (PolicyB.handler (with_feed P (Ok (mkFeed (List.filter (fresh P) its))))) =
  run (PolicyB.handler (with_feed P (Ok (mkFeed its)))).
Proof.
  rewrite !handlerB_run_with_feed.
  destruct (PolicyB.getConfigFromEnv P) as [cfg|e]; [|reflexivity].
  now rewrite omap_notificationB_fresh.
Qed.

(** X14: the second variant keeps no record of what it has notified: while the
    transport accepts every call, the calls for a feed [a ++ b] are the
    calls for [a] followed by the calls for [b], so an entry listed twice
    is notified twice. *)
Theorem policyB_calls_concatenate (P : Platform) (cfg : PolicyB.Config)
    (a b : list RssItem) :
  PolicyB.getConfigFromEnv P = Ok cfg ->
  (forall sent input,
     is_ok (client_send P (PolicyB.createSnsClient (PolicyB.region cfg)) sent input)) ->
  published (PolicyB.handler (with_feed P (Ok (mkFeed (a ++ b)%list)))) =
    (published (PolicyB.handler (with_feed P (Ok (mkFeed a))))
       ++ published (PolicyB.handler (with_feed P (Ok (mkFeed b)))))%list.
Proof.
  intros Hcfg Hok. unfold published.
  rewrite !handlerB_run_with_feed, Hcfg, !deliver_all_ok by exact Hok.
  cbn [snd app]. apply omap_app.
Qed.

Lemma policyB_calls_concatenate_witness :
  let P := Sample.platform [] in
  exists m,
    published (PolicyB.handler (with_feed P (Ok (mkFeed [Sample.ep3])))) = [m] /\
    published (PolicyB.handler (with_feed P (Ok (mkFeed [Sample.ep3; Sample.ep3]))))
      = [m; m].
Proof.
  eexists. split; [vm_compute; reflexivity|].
  refine (eq_trans (policyB_calls_concatenate (Sample.platform []) Sample.cfgB
                      [Sample.ep3] [Sample.ep3] _ _) _).
  - vm_compute; reflexivity.
  - intros sent input. exists "message-id"%string. reflexivity.
  - vm_compute; reflexivity.
Defined.

Lemma omap_notificationB_without_link (P : Platform) (cfg : PolicyB.Config)
    (its : list RssItem) :
  omap (notificationB P cfg) (map without_link its) = omap (notificationB P cfg) its.
Proof.
  induction its as [|item its IH]; [reflexivity|].
  cbn [map omap list_omap]. now rewrite IH.
Qed.

(** X13: the second variant never reads the link of an entry: erasing the links
    of the feed changes nothing. *)
Theorem policyB_ignores_links (P : Platform) (its : list RssItem) :
  run (PolicyB.handler (with_feed P (Ok (mkFeed (map without_link its))))) =
  run (PolicyB.handler (with_feed P (Ok (mkFeed its)))).
Proof.
  rewrite !handlerB_run_with_feed.
  destruct (PolicyB.getConfigFromEnv P) as [cfg|e]; [|reflexivity].
  now rewrite omap_notificationB_without_link.
Qed.

Lemma field_value_minute (field : string) (t : Z) :
  Intl.field_value field t = Intl.field_value field (60000 * (t / 60000)).
Proof.
  unfold Intl.field_value.
  change (Intl.TOKYO_OFFSET) with 32400000.
  change (Intl.MS_PER_DAY) with 86400000.
  change (Intl.MS_PER_HOUR) with 3600000.
  change (Intl.MS_PER_MINUTE) with 60000.
  assert (Hday : (t + 32400000) / 86400000 = (60000 * (t / 60000) + 32400000) / 86400000)
    by (Z.div_mod_to_equations; lia).
  assert (Hhour : (t + 32400000) mod 86400000 / 3600000
                  = (60000 * (t / 60000) + 32400000) mod 86400000 / 3600000)
    by (Z.div_mod_to_equations; lia).
  assert (Hmin : (t + 32400000) mod 3600000 / 60000
                 = (60000 * (t / 60000) + 32400000) mod 3600000 / 60000)
    by (Z.div_mod_to_equations; lia).
  now rewrite Hday, Hhour, Hmin.
Qed.

(** X15: on the covered instants the rendered date has the resolution of
    a minute: two covered instants in the same minute render alike in both
    variants, so seconds and milliseconds never show. *)
Theorem formatJstDateTime_minute_resolution (t t' : Z) :
  JST_FIRST <= t <= JST_LAST ->
  JST_FIRST <= t' <= JST_LAST ->
  t / 60000 = t' / 60000 ->
  PolicyA.formatJstDateTime t = PolicyA.formatJstDateTime t' /\
  PolicyB.formatJstDateTime t = PolicyB.formatJstDateTime t'.
Proof.
  intros _ _ H.
  assert (Hf : forall field, Intl.field_value field t = Intl.field_value field t').
  { intros field.
    now rewrite (field_value_minute field t), (field_value_minute field t'), H. }
  split.
  - rewrite !formatJstDateTimeA_parts. cbv zeta. now rewrite !Hf.
  - unfold PolicyB.formatJstDateTime, Intl.format, Intl.formatToParts,
      Intl.DateTimeFormat_year, Intl.DateTimeFormat_month, Intl.DateTimeFormat_day,
      Intl.DateTimeFormat_hour, Intl.DateTimeFormat_minute.
    cbn [map Intl.format_item Intl.value]. now rewrite !Hf.
Qed.

Lemma formatJstDateTime_minute_resolution_witness :
  PolicyA.formatJstDateTime 1710480600000 = PolicyA.formatJstDateTime 1710480659999 /\
  PolicyB.formatJstDateTime 1710480600000 = PolicyB.formatJstDateTime 1710480659999.
Proof.
  apply (formatJstDateTime_minute_resolution 1710480600000 1710480659999).
  - unfold JST_FIRST, JST_LAST. lia.
  - unfold JST_FIRST, JST_LAST. lia.
  - reflexivity.
Defined.

(** X16: on every covered instant the first variant renders 22 bytes of the
    form [YYYY/MM/DD HH:MM (JST)]: the year has four digits, the month is
    between 01 and 12, the day between 01 and 31, the hour between 00 and
    23 and the minute between 00 and 59. *)
Theorem formatJstDateTimeA_fixed_form (t : Z) :
  JST_FIRST <= t <= JST_LAST ->
  exists y mo d h mi,
    1000 <= y <= 9999 /\ 1 <= mo <= 12 /\ 1 <= d <= 31 /\
    0 <= h <= 23 /\ 0 <= mi <= 59 /\
    PolicyA.formatJstDateTime t =
      (four_digits y ++ "/" ++ two_digits mo ++ "/" ++ two_digits d ++ " "
         ++ two_digits h ++ ":" ++ two_digits mi ++ " (JST)")%string /\
    String.length (PolicyA.formatJstDateTime t) = 22%nat.
Proof.
  intros Ht.
  destruct (field_value_bounds t Ht) as (Hy & Hmo & Hd & Hh & Hmi).
  exists (Intl.field_value "year" t), (Intl.field_value "month" t),
    (Intl.field_value "day" t), (Intl.field_value "hour" t),
    (Intl.field_value "minute" t).
  repeat (split; [lia|]).
  rewrite (formatJstDateTimeA_renders t Ht). split; reflexivity.
Qed.

Lemma formatJstDateTimeA_fixed_form_witness :
  exists y mo d h mi,
    1000 <= y <= 9999 /\ 1 <= mo <= 12 /\ 1 <= d <= 31 /\
    0 <= h <= 23 /\ 0 <= mi <= 59 /\
    PolicyA.formatJstDateTime 1710480600000 =
      (four_digits y ++ "/" ++ two_digits mo ++ "/" ++ two_digits d ++ " "
         ++ two_digits h ++ ":" ++ two_digits mi ++ " (JST)")%string /\
    String.length (PolicyA.formatJstDateTime 1710480600000) = 22%nat.
Proof.
  apply (formatJstDateTimeA_fixed_form 1710480600000).
  unfold JST_FIRST, JST_LAST. lia.
Defined.

Lemma or_truthy (s d : string) : s <> ""%string -> JS.or (Some s) d = s.
Proof.
  intros Hs. unfold JS.or, JS.truthy.
  destruct (String.eqb_spec s ""); [contradiction|reflexivity].
Qed.

(** X10: the message of the first variant carries the title and the link of
    the second entry as they are, when they are not empty: the publish
    call has the common head with that title and the URL line with that
    link. *)
Theorem policyA_message_carries_title_and_link (P : Platform) (cfg : PolicyA.Config)
    (latest second : RssItem) (rest : list RssItem) (t0 t1 : Z) (ttl url : string) :
  PolicyA.getConfigFromEnv P = Ok cfg ->
  parseURL P RSS_URL = Ok (mkFeed (latest :: second :: rest)) ->
  publishTime P latest = Some t0 ->
  cutoff P < t0 ->
  publishTime P second = Some t1 ->
  title second = Some ttl -> ttl <> ""%string ->
  link second = Some url -> url <> ""%string ->
  published (PolicyA.handler P) =
    [ {| TopicArn := PolicyA.topicArn cfg; Subject := SUBJECT;
         Message := (message_head ttl (PolicyA.formatJstDateTime t1)
                       ++ JS.LF ++ "- URL: " ++ url)%string |} ].
Proof.
  intros Hcfg Hfeed H0 Hfresh H1 Httl Hne Hurl Hne'.
  unfold published. rewrite handlerA_run, Hcfg, Hfeed. cbn [items].
  rewrite H0, H1. apply Z.ltb_lt in Hfresh. rewrite Hfresh.
  rewrite deliver_one_published. unfold notificationA, PolicyA.getItemDisplay.
  cbn [PolicyA.display_title PolicyA.display_url].
  rewrite Httl, Hurl, (or_truthy ttl _ Hne), (or_truthy url _ Hne').
  now rewrite buildMessageA_head.
Qed.

Lemma policyA_message_carries_title_and_link_witness :
  published (PolicyA.handler (Sample.platform [Sample.ep3; Sample.ep1])) =
    [ {| TopicArn := Sample.TOPIC; Subject := SUBJECT;
         Message := (message_head "Ep1" "2024/03/14 09:30 (JST)"
                       ++ JS.LF ++ "- URL: https://example.com/ep1")%string |} ].
Proof.
  apply (policyA_message_carries_title_and_link
           (Sample.platform [Sample.ep3; Sample.ep1]) Sample.cfgA
           Sample.ep3 Sample.ep1 [] 1710480600000 1710376200000
           "Ep1" "https://example.com/ep1");
    solve [vm_compute; reflexivity | discriminate].
Defined.




Lemma app_singleton_neq (sent : list PublishInput) (m : PublishInput) :
  (sent ++ [m])%list <> sent.
Proof.
  intros H. apply (f_equal (@length PublishInput)) in H.
  rewrite length_app in H. cbn in H. lia.
Qed.

(** X11: the window of the second variant: the loop body issues a publish call
    for an entry exactly when its [pubDate] is a non-empty string that
    parses to a time less than 24 hours before the invocation.  There is
    no bound on the other side: an entry dated in the future is notified
    as well. *)
Theorem policyB_notifies_within_window (P : Platform) (sns : SNSClient)
    (cfg : PolicyB.Config) (item : RssItem) (sent : list PublishInput) :
  snd (PolicyB.notify_if_fresh P sns cfg (Date_now P - 24 * 60 * 60 * 1000) item sent)
    <> sent <->
  exists s t,
    pubDate item = Some s /\ s <> ""%string /\ Date_parse P s = Some t /\
    Date_now P - t < 86400000.
Proof.
  change (Date_now P - 24 * 60 * 60 * 1000) with (cutoff P).
  rewrite notify_if_fresh_run. unfold notificationB, publishTime.
  destruct (pubDate item) as [s|].
  - destruct (String.eqb_spec s "") as [->|Hs].
    + split; [intros H; now contradict H|].
      intros (s' & t & Hs' & Hne & _). inversion Hs'; subst. contradiction.
    + destruct (Date_parse P s) as [t|] eqn:Hp.
      * destruct (Z.ltb_spec (cutoff P) t) as [Hlt|Hge].
        -- split.
           ++ intros _. exists s, t. unfold cutoff in Hlt. repeat split; try assumption; lia.
           ++ intros _. cbn [deliver].
              destruct (client_send P sns sent _); apply app_singleton_neq.
        -- split; [intros H; now contradict H|].
           intros (s' & t' & Hs' & _ & Hp' & Hw). inversion Hs'; subst.
           rewrite Hp in Hp'. inversion Hp'; subst. unfold cutoff in Hge. lia.
      * split; [intros H; now contradict H|].
        intros (s' & t' & Hs' & _ & Hp' & _). inversion Hs'; subst.
        rewrite Hp in Hp'. discriminate.
  - split; [intros H; now contradict H|].
    intros (s' & t & Hs' & _). discriminate.
Qed.
